(** * ATM simulator: the account ledger of [atm-simulator.py]

    A shallow embedding of class [ATM] and proofs about its operations.

    - Python [str] values are sequences of Unicode code points ([PyStr]).
    - Python [float] values are IEEE 754 binary64 numbers ([PyFloat]), with
      the operations of the standard library's [SpecFloat].
    - The methods of [ATM] mutate [self] and print; they are written in a
      small state-and-output monad [M].
    - [datetime.now()] is an input of the methods that record a transaction.
    - [main] and [get_valid_float_input] run on the lines typed at the
      terminal, in a second monad [Session] that adds the input and the
      [EOFError] of [input]; [float] on a string is a parameter. *)

From Stdlib Require Import ZArith NArith List Bool Lia.
From Stdlib Require Import Strings.Ascii Strings.String.
From Stdlib Require Import Floats.SpecFloat.
Import ListNotations.
Local Open Scope Z_scope.

(** ** Python strings *)

Module PyStr.

(** A code point, [0 <= c < 0x110000]. *)
Definition codepoint := N.

Definition str := list codepoint.

(** A source literal made of ASCII characters only. *)
Definition lit (s : string) : str := map N_of_ascii (list_ascii_of_string s).

(** [len(s)] *)
Definition len (s : str) : Z := Z.of_nat (List.length s).

(** [s == t] *)
Fixpoint eqb (s t : str) : bool :=
  match s, t with
  | [], [] => true
  | c :: s', d :: t' => N.eqb c d && eqb s' t'
  | _, _ => false
  end.

(** The code points on which [str.isdigit] holds, as inclusive ranges in
    increasing order: those whose Unicode [Numeric_Type] is [Decimal] or
    [Digit], all 788 of them in the character database, version 14.0.0, of
    CPython 3.11: the decimal digits of every script, and the superscript,
    subscript, circled, parenthesized and other digits that are not
    decimal. *)
Definition digit_ranges : list (N * N) :=
  [ (0x0030, 0x0039)   (* DIGIT ZERO .. DIGIT NINE *)
  ; (0x00B2, 0x00B3)   (* SUPERSCRIPT TWO .. SUPERSCRIPT THREE *)
  ; (0x00B9, 0x00B9)   (* SUPERSCRIPT ONE *)
  ; (0x0660, 0x0669)   (* ARABIC-INDIC DIGIT ZERO .. ARABIC-INDIC DIGIT NINE *)
  ; (0x06F0, 0x06F9)   (* EXTENDED ARABIC-INDIC DIGIT ZERO .. EXTENDED ARABIC-INDIC DIGIT NINE *)
  ; (0x07C0, 0x07C9)   (* NKO DIGIT ZERO .. NKO DIGIT NINE *)
  ; (0x0966, 0x096F)   (* DEVANAGARI DIGIT ZERO .. DEVANAGARI DIGIT NINE *)
  ; (0x09E6, 0x09EF)   (* BENGALI DIGIT ZERO .. BENGALI DIGIT NINE *)
  ; (0x0A66, 0x0A6F)   (* GURMUKHI DIGIT ZERO .. GURMUKHI DIGIT NINE *)
  ; (0x0AE6, 0x0AEF)   (* GUJARATI DIGIT ZERO .. GUJARATI DIGIT NINE *)
  ; (0x0B66, 0x0B6F)   (* ORIYA DIGIT ZERO .. ORIYA DIGIT NINE *)
  ; (0x0BE6, 0x0BEF)   (* TAMIL DIGIT ZERO .. TAMIL DIGIT NINE *)
  ; (0x0C66, 0x0C6F)   (* TELUGU DIGIT ZERO .. TELUGU DIGIT NINE *)
  ; (0x0CE6, 0x0CEF)   (* KANNADA DIGIT ZERO .. KANNADA DIGIT NINE *)
  ; (0x0D66, 0x0D6F)   (* MALAYALAM DIGIT ZERO .. MALAYALAM DIGIT NINE *)
  ; (0x0DE6, 0x0DEF)   (* SINHALA LITH DIGIT ZERO .. SINHALA LITH DIGIT NINE *)
  ; (0x0E50, 0x0E59)   (* THAI DIGIT ZERO .. THAI DIGIT NINE *)
  ; (0x0ED0, 0x0ED9)   (* LAO DIGIT ZERO .. LAO DIGIT NINE *)
  ; (0x0F20, 0x0F29)   (* TIBETAN DIGIT ZERO .. TIBETAN DIGIT NINE *)
  ; (0x1040, 0x1049)   (* MYANMAR DIGIT ZERO .. MYANMAR DIGIT NINE *)
  ; (0x1090, 0x1099)   (* MYANMAR SHAN DIGIT ZERO .. MYANMAR SHAN DIGIT NINE *)
  ; (0x1369, 0x1371)   (* ETHIOPIC DIGIT ONE .. ETHIOPIC DIGIT NINE *)
  ; (0x17E0, 0x17E9)   (* KHMER DIGIT ZERO .. KHMER DIGIT NINE *)
  ; (0x1810, 0x1819)   (* MONGOLIAN DIGIT ZERO .. MONGOLIAN DIGIT NINE *)
  ; (0x1946, 0x194F)   (* LIMBU DIGIT ZERO .. LIMBU DIGIT NINE *)
  ; (0x19D0, 0x19DA)   (* NEW TAI LUE DIGIT ZERO .. NEW TAI LUE THAM DIGIT ONE *)
  ; (0x1A80, 0x1A89)   (* TAI THAM HORA DIGIT ZERO .. TAI THAM HORA DIGIT NINE *)
  ; (0x1A90, 0x1A99)   (* TAI THAM THAM DIGIT ZERO .. TAI THAM THAM DIGIT NINE *)
  ; (0x1B50, 0x1B59)   (* BALINESE DIGIT ZERO .. BALINESE DIGIT NINE *)
  ; (0x1BB0, 0x1BB9)   (* SUNDANESE DIGIT ZERO .. SUNDANESE DIGIT NINE *)
  ; (0x1C40, 0x1C49)   (* LEPCHA DIGIT ZERO .. LEPCHA DIGIT NINE *)
  ; (0x1C50, 0x1C59)   (* OL CHIKI DIGIT ZERO .. OL CHIKI DIGIT NINE *)
  ; (0x2070, 0x2070)   (* SUPERSCRIPT ZERO *)
  ; (0x2074, 0x2079)   (* SUPERSCRIPT FOUR .. SUPERSCRIPT NINE *)
  ; (0x2080, 0x2089)   (* SUBSCRIPT ZERO .. SUBSCRIPT NINE *)
  ; (0x2460, 0x2468)   (* CIRCLED DIGIT ONE .. CIRCLED DIGIT NINE *)
  ; (0x2474, 0x247C)   (* PARENTHESIZED DIGIT ONE .. PARENTHESIZED DIGIT NINE *)
  ; (0x2488, 0x2490)   (* DIGIT ONE FULL STOP .. DIGIT NINE FULL STOP *)
  ; (0x24EA, 0x24EA)   (* CIRCLED DIGIT ZERO *)
  ; (0x24F5, 0x24FD)   (* DOUBLE CIRCLED DIGIT ONE .. DOUBLE CIRCLED DIGIT NINE *)
  ; (0x24FF, 0x24FF)   (* NEGATIVE CIRCLED DIGIT ZERO *)
  ; (0x2776, 0x277E)   (* DINGBAT NEGATIVE CIRCLED DIGIT ONE .. DINGBAT NEGATIVE CIRCLED DIGIT NINE *)
  ; (0x2780, 0x2788)   (* DINGBAT CIRCLED SANS-SERIF DIGIT ONE .. DINGBAT CIRCLED SANS-SERIF DIGIT NINE *)
  ; (0x278A, 0x2792)   (* DINGBAT NEGATIVE CIRCLED SANS-SERIF DIGIT ONE .. DINGBAT NEGATIVE CIRCLED SANS-SERIF DIGIT NINE *)
  ; (0xA620, 0xA629)   (* VAI DIGIT ZERO .. VAI DIGIT NINE *)
  ; (0xA8D0, 0xA8D9)   (* SAURASHTRA DIGIT ZERO .. SAURASHTRA DIGIT NINE *)
  ; (0xA900, 0xA909)   (* KAYAH LI DIGIT ZERO .. KAYAH LI DIGIT NINE *)
  ; (0xA9D0, 0xA9D9)   (* JAVANESE DIGIT ZERO .. JAVANESE DIGIT NINE *)
  ; (0xA9F0, 0xA9F9)   (* MYANMAR TAI LAING DIGIT ZERO .. MYANMAR TAI LAING DIGIT NINE *)
  ; (0xAA50, 0xAA59)   (* CHAM DIGIT ZERO .. CHAM DIGIT NINE *)
  ; (0xABF0, 0xABF9)   (* MEETEI MAYEK DIGIT ZERO .. MEETEI MAYEK DIGIT NINE *)
  ; (0xFF10, 0xFF19)   (* FULLWIDTH DIGIT ZERO .. FULLWIDTH DIGIT NINE *)
  ; (0x104A0, 0x104A9)   (* OSMANYA DIGIT ZERO .. OSMANYA DIGIT NINE *)
  ; (0x10A40, 0x10A43)   (* KHAROSHTHI DIGIT ONE .. KHAROSHTHI DIGIT FOUR *)
  ; (0x10D30, 0x10D39)   (* HANIFI ROHINGYA DIGIT ZERO .. HANIFI ROHINGYA DIGIT NINE *)
  ; (0x10E60, 0x10E68)   (* RUMI DIGIT ONE .. RUMI DIGIT NINE *)
  ; (0x11052, 0x1105A)   (* BRAHMI NUMBER ONE .. BRAHMI NUMBER NINE *)
  ; (0x11066, 0x1106F)   (* BRAHMI DIGIT ZERO .. BRAHMI DIGIT NINE *)
  ; (0x110F0, 0x110F9)   (* SORA SOMPENG DIGIT ZERO .. SORA SOMPENG DIGIT NINE *)
  ; (0x11136, 0x1113F)   (* CHAKMA DIGIT ZERO .. CHAKMA DIGIT NINE *)
  ; (0x111D0, 0x111D9)   (* SHARADA DIGIT ZERO .. SHARADA DIGIT NINE *)
  ; (0x112F0, 0x112F9)   (* KHUDAWADI DIGIT ZERO .. KHUDAWADI DIGIT NINE *)
  ; (0x11450, 0x11459)   (* NEWA DIGIT ZERO .. NEWA DIGIT NINE *)
  ; (0x114D0, 0x114D9)   (* TIRHUTA DIGIT ZERO .. TIRHUTA DIGIT NINE *)
  ; (0x11650, 0x11659)   (* MODI DIGIT ZERO .. MODI DIGIT NINE *)
  ; (0x116C0, 0x116C9)   (* TAKRI DIGIT ZERO .. TAKRI DIGIT NINE *)
  ; (0x11730, 0x11739)   (* AHOM DIGIT ZERO .. AHOM DIGIT NINE *)
  ; (0x118E0, 0x118E9)   (* WARANG CITI DIGIT ZERO .. WARANG CITI DIGIT NINE *)
  ; (0x11950, 0x11959)   (* DIVES AKURU DIGIT ZERO .. DIVES AKURU DIGIT NINE *)
  ; (0x11C50, 0x11C59)   (* BHAIKSUKI DIGIT ZERO .. BHAIKSUKI DIGIT NINE *)
  ; (0x11D50, 0x11D59)   (* MASARAM GONDI DIGIT ZERO .. MASARAM GONDI DIGIT NINE *)
  ; (0x11DA0, 0x11DA9)   (* GUNJALA GONDI DIGIT ZERO .. GUNJALA GONDI DIGIT NINE *)
  ; (0x16A60, 0x16A69)   (* MRO DIGIT ZERO .. MRO DIGIT NINE *)
  ; (0x16AC0, 0x16AC9)   (* TANGSA DIGIT ZERO .. TANGSA DIGIT NINE *)
  ; (0x16B50, 0x16B59)   (* PAHAWH HMONG DIGIT ZERO .. PAHAWH HMONG DIGIT NINE *)
  ; (0x1D7CE, 0x1D7FF)   (* MATHEMATICAL BOLD DIGIT ZERO .. MATHEMATICAL MONOSPACE DIGIT NINE *)
  ; (0x1E140, 0x1E149)   (* NYIAKENG PUACHUE HMONG DIGIT ZERO .. NYIAKENG PUACHUE HMONG DIGIT NINE *)
  ; (0x1E2F0, 0x1E2F9)   (* WANCHO DIGIT ZERO .. WANCHO DIGIT NINE *)
  ; (0x1E950, 0x1E959)   (* ADLAM DIGIT ZERO .. ADLAM DIGIT NINE *)
  ; (0x1F100, 0x1F10A)   (* DIGIT ZERO FULL STOP .. DIGIT NINE COMMA *)
  ; (0x1FBF0, 0x1FBF9)   (* SEGMENTED DIGIT ZERO .. SEGMENTED DIGIT NINE *)
  ]%N.

Definition in_range (c : codepoint) (r : N * N) : bool :=
  (N.leb (fst r) c && N.leb c (snd r))%bool.

(** The per-character test of [str.isdigit]. *)
Definition char_isdigit (c : codepoint) : bool :=
  existsb (in_range c) digit_ranges.

(** [s.isdigit()]: every character is a digit and there is at least one. *)
Definition isdigit (s : str) : bool :=
  match s with
  | [] => false
  | _ => forallb char_isdigit s
  end.

(** The ten characters ['0'] .. ['9']. *)
Definition ascii_digit (c : codepoint) : bool :=
  (N.leb 0x30 c && N.leb c 0x39)%bool.

End PyStr.

(** ** Python floats *)

Module PyFloat.

Definition prec : Z := 53.
Definition emax : Z := 1024.

Definition float := spec_float.

Definition add : float -> float -> float := SFadd prec emax.
Definition sub : float -> float -> float := SFsub prec emax.
Definition neg : float -> float := SFopp.
Definition ltb : float -> float -> bool := SFltb.
Definition leb : float -> float -> bool := SFleb.

(** The float an integer literal or operand converts to. *)
Definition of_Z (z : Z) : float := binary_normalize prec emax z 0 false.

Definition zero : float := S754_zero false.
Definition inf : float := S754_infinity false.
Definition nan : float := S754_nan.

Definition is_nan (x : float) : bool :=
  match x with S754_nan => true | _ => false end.

(** [x] is a zero, an infinity or a finite number of sign bit [s]. *)
Definition has_sign (s : bool) (x : float) : bool :=
  match x with
  | S754_zero s' | S754_infinity s' | S754_finite s' _ _ => Bool.eqb s s'
  | S754_nan => false
  end.

End PyFloat.

Abbreviation str := PyStr.str.
Abbreviation float := PyFloat.float.

(** A Python number as the ledger stores it: the [int] literal [0] of a PIN
    change, or a [float]. *)
Inductive num :=
| Int (z : Z)
| Float (f : float).

(** The reading of [datetime.now()], in microseconds. *)
Definition datetime := Z.

(** ** The ledger *)

(** The dictionary built by [_record_transaction], keys ['type'], ['amount'],
    ['balance'] and ['timestamp']. *)
Record transaction := mkTransaction
  { tx_type : str
  ; tx_amount : num
  ; tx_balance : float
  ; tx_timestamp : datetime }.

(** The attributes of an [ATM] instance. *)
Record ATM := mkATM
  { card_number : str
  ; pin : str
  ; balance : float
  ; max_pin_attempts : Z
  ; pin_attempts : Z
  ; transaction_history : list transaction }.

Definition set_pin (v : str) (self : ATM) : ATM :=
  mkATM self.(card_number) v self.(balance) self.(max_pin_attempts)
        self.(pin_attempts) self.(transaction_history).

Definition set_balance (v : float) (self : ATM) : ATM :=
  mkATM self.(card_number) self.(pin) v self.(max_pin_attempts)
        self.(pin_attempts) self.(transaction_history).

Definition set_pin_attempts (v : Z) (self : ATM) : ATM :=
  mkATM self.(card_number) self.(pin) self.(balance) self.(max_pin_attempts)
        v self.(transaction_history).

Definition set_transaction_history (v : list transaction) (self : ATM) : ATM :=
  mkATM self.(card_number) self.(pin) self.(balance) self.(max_pin_attempts)
        self.(pin_attempts) v.

(** [ATM.__init__] *)
Definition ATM_init : ATM :=
  {| card_number := PyStr.lit "1234"
   ; pin := PyStr.lit "5472"
   ; balance := PyFloat.of_Z 1000
   ; max_pin_attempts := 3
   ; pin_attempts := 0
   ; transaction_history := [] |}.

(** What a method prints; the colour codes and the layout of the text are
    left to the terminal. *)
Inductive output :=
| CardBlocked                        (* "Card blocked. Too many incorrect attempts." *)
| IncorrectPin (remaining : Z)       (* "Incorrect PIN. {remaining} attempts remaining." *)
| MiniStatementHeader                (* "--- Mini Statement ---" *)
| MiniStatementLine (t : transaction).

(** ** The monad of the methods: the instance and the printed lines *)

Definition M (A : Type) : Type := ATM -> A * ATM * list output.

Definition ret {A} (a : A) : M A := fun self => (a, self, []).

Definition bind {A B} (m : M A) (k : A -> M B) : M B :=
  fun self =>
    let '(a, self1, o1) := m self in
    let '(b, self2, o2) := k a self1 in
    (b, self2, o1 ++ o2).

Definition get : M ATM := fun self => (self, self, []).
Definition modify (f : ATM -> ATM) : M unit := fun self => (tt, f self, []).
Definition print (o : output) : M unit := fun self => (tt, self, [o]).

Declare Scope atm_scope.
Delimit Scope atm_scope with atm.
Notation "x <- m ;; k" := (bind m (fun x => k))
  (at level 61, m at next level, right associativity) : atm_scope.
Notation "m ;; k" := (bind m (fun _ => k))
  (at level 61, right associativity) : atm_scope.
Local Open Scope atm_scope.

Definition result {A} (r : A * ATM * list output) : A := fst (fst r).
Definition state {A} (r : A * ATM * list output) : ATM := snd (fst r).
Definition printed {A} (r : A * ATM * list output) : list output := snd r.

(** ** The methods of [ATM] *)

(** [ATM.validate_pin] *)
Definition validate_pin (pin_in : str) : M bool :=
  self <- get ;;
  if self.(pin_attempts) >=? self.(max_pin_attempts) then
    print CardBlocked ;;
    ret false
  else if PyStr.eqb pin_in self.(pin) then
    modify (set_pin_attempts 0) ;;
    ret true
  else
    modify (set_pin_attempts (self.(pin_attempts) + 1)) ;;
    self' <- get ;;
    print (IncorrectPin (self'.(max_pin_attempts) - self'.(pin_attempts))) ;;
    ret false.

(** [ATM.check_balance] *)
Definition check_balance : M float :=
  self <- get ;;
  ret self.(balance).

(** [ATM._record_transaction]; [now] is the value of [datetime.now()]. *)
Definition _record_transaction (transaction_type : str) (amount : num)
    (now : datetime) : M unit :=
  self <- get ;;
  let transaction :=
    {| tx_type := transaction_type
     ; tx_amount := amount
     ; tx_balance := self.(balance)
     ; tx_timestamp := now |} in
  modify (set_transaction_history (self.(transaction_history) ++ [transaction])).

(** [ATM.deposit]: the guard is [amount > 0]. *)
Definition deposit (amount : float) (now : datetime) : M bool :=
  self <- get ;;
  if PyFloat.ltb (PyFloat.of_Z 0) amount then
    modify (set_balance (PyFloat.add self.(balance) amount)) ;;
    _record_transaction (PyStr.lit "Deposit") (Float amount) now ;;
    ret true
  else ret false.

(** [ATM.withdraw]: the guard is the chain [0 < amount <= self.balance]. *)
Definition withdraw (amount : float) (now : datetime) : M bool :=
  self <- get ;;
  if PyFloat.ltb (PyFloat.of_Z 0) amount && PyFloat.leb amount self.(balance) then
    modify (set_balance (PyFloat.sub self.(balance) amount)) ;;
    _record_transaction (PyStr.lit "Withdrawal") (Float (PyFloat.neg amount)) now ;;
    ret true
  else ret false.

(** [ATM.transfer] *)
Definition transfer (amount : float) (target_account : str) (now : datetime)
    : M bool :=
  self <- get ;;
  if PyFloat.ltb (PyFloat.of_Z 0) amount && PyFloat.leb amount self.(balance) then
    modify (set_balance (PyFloat.sub self.(balance) amount)) ;;
    _record_transaction (PyStr.lit "Transfer to " ++ target_account)
                        (Float (PyFloat.neg amount)) now ;;
    ret true
  else ret false.

(** [ATM.change_pin] *)
Definition change_pin (new_pin : str) (now : datetime) : M bool :=
  if (PyStr.len new_pin =? 4) && PyStr.isdigit new_pin then
    modify (set_pin new_pin) ;;
    _record_transaction (PyStr.lit "PIN Change") (Int 0) now ;;
    ret true
  else ret false.

(** [l[start:]], a slice with no stop: a negative [start] counts from the
    end, and either way it is clamped to the list. *)
Definition slice_from {A} (start : Z) (l : list A) : list A :=
  let n := Z.of_nat (List.length l) in
  let i := if start <? 0 then Z.max (start + n) 0 else Z.min start n in
  skipn (Z.to_nat i) l.

(** The transactions the mini statement shows:
    [self.transaction_history[-5:]]. *)
Definition recent_transactions (self : ATM) : list transaction :=
  slice_from (-5) self.(transaction_history).

Fixpoint print_lines (ts : list transaction) : M unit :=
  match ts with
  | [] => ret tt
  | t :: ts' => print (MiniStatementLine t) ;; print_lines ts'
  end.

(** [ATM.print_mini_statement] *)
Definition print_mini_statement : M unit :=
  print MiniStatementHeader ;;
  self <- get ;;
  print_lines (recent_transactions self).

(** ** Sequences of calls *)

(** One call of a method on the instance, with its arguments. *)
Inductive call :=
| ValidatePin (pin_in : str)
| CheckBalance
| Deposit (amount : float) (now : datetime)
| Withdraw (amount : float) (now : datetime)
| Transfer (amount : float) (target_account : str) (now : datetime)
| ChangePin (new_pin : str) (now : datetime)
| PrintMiniStatement.

Definition call_method (c : call) : M unit :=
  match c with
  | ValidatePin p => validate_pin p ;; ret tt
  | CheckBalance => check_balance ;; ret tt
  | Deposit a now => deposit a now ;; ret tt
  | Withdraw a now => withdraw a now ;; ret tt
  | Transfer a t now => transfer a t now ;; ret tt
  | ChangePin p now => change_pin p now ;; ret tt
  | PrintMiniStatement => print_mini_statement
  end.

Fixpoint run (cs : list call) : M unit :=
  match cs with
  | [] => ret tt
  | c :: cs' => call_method c ;; run cs'
  end.

(** The states a session can be in: those some sequence of calls produces
    from a fresh instance. *)
Definition reachable (self : ATM) : Prop :=
  exists cs, state (run cs ATM_init) = self.

(** The card is blocked: the counter has reached the limit. *)
Definition blocked (self : ATM) : Prop :=
  self.(max_pin_attempts) <= self.(pin_attempts).

(** The guards, as the methods test them. *)
Definition deposit_guard (amount : float) : bool :=
  PyFloat.ltb (PyFloat.of_Z 0) amount.

Definition withdraw_guard (amount : float) (self : ATM) : bool :=
  PyFloat.ltb (PyFloat.of_Z 0) amount && PyFloat.leb amount self.(balance).

Definition change_pin_guard (new_pin : str) : bool :=
  (PyStr.len new_pin =? 4) && PyStr.isdigit new_pin.

(** The counter stays between 0 and the limit, and the limit stays 3. *)
Definition attempts_in_bounds (self : ATM) : Prop :=
  self.(max_pin_attempts) = 3
  /\ 0 <= self.(pin_attempts) <= self.(max_pin_attempts).

(** Two results agree on the boolean, the balance, the PIN and the
    history. *)
Definition same_ledger (r1 r2 : bool * ATM * list output) : Prop :=
  result r1 = result r2
  /\ (state r1).(balance) = (state r2).(balance)
  /\ (state r1).(pin) = (state r2).(pin)
  /\ (state r1).(transaction_history) = (state r2).(transaction_history).

(** Six deposits, of 1 to 6: the statement shows the last five. *)
Definition six_deposits : list call :=
  map (fun k => Deposit (PyFloat.of_Z k) k) [1; 2; 3; 4; 5; 6].

(** Four times SUPERSCRIPT TWO, U+00B2. *)
Definition superscript_twos : str := [0xB2; 0xB2; 0xB2; 0xB2]%N.

(** ** Histories *)

(** The balance a history closes on: the balance of its last entry, or
    [start] when it has none. *)
Definition closing_balance (start : float) (h : list transaction) : float :=
  fold_left (fun _ t => t.(tx_balance)) h start.

(** The entry [t] carries the balance [prev] forward: its balance is [prev]
    plus its amount, and a PIN change, of amount [0], keeps [prev]. *)
Definition follows (prev : float) (t : transaction) : Prop :=
  match t.(tx_amount) with
  | Int z => z = 0 /\ t.(tx_balance) = prev
  | Float f => t.(tx_balance) = PyFloat.add prev f
  end.

(** Every entry of [h] follows the one before, the first one [start]. *)
Fixpoint chained (start : float) (h : list transaction) : Prop :=
  match h with
  | [] => True
  | t :: h' => follows start t /\ chained t.(tx_balance) h'
  end.

(** The four shapes of entry the methods record. *)
Definition entry_of_method (t : transaction) : Prop :=
  (t.(tx_type) = PyStr.lit "Deposit"
   /\ exists a, t.(tx_amount) = Float a
                /\ PyFloat.ltb (PyFloat.of_Z 0) a = true)
  \/ (t.(tx_type) = PyStr.lit "Withdrawal"
      /\ exists a, t.(tx_amount) = Float (PyFloat.neg a)
                   /\ PyFloat.ltb (PyFloat.of_Z 0) a = true)
  \/ ((exists target, t.(tx_type) = PyStr.lit "Transfer to " ++ target)
      /\ exists a, t.(tx_amount) = Float (PyFloat.neg a)
                   /\ PyFloat.ltb (PyFloat.of_Z 0) a = true)
  \/ (t.(tx_type) = PyStr.lit "PIN Change" /\ t.(tx_amount) = Int 0).

(** The PIN has four characters, all digits for [str.isdigit]. *)
Definition pin_well_formed (self : ATM) : Prop :=
  PyStr.len self.(pin) = 4 /\ PyStr.isdigit self.(pin) = true.

(** ** Binary64 values *)

(** [x] is a value of the binary64 format: a finite [x] has its mantissa
    and exponent in normal form and in range. *)
Definition is_binary64 (x : float) : bool :=
  valid_binary PyFloat.prec PyFloat.emax x.

(** The amount of a call is a binary64 value, and the amount of a
    withdrawal or a transfer is not the positive infinity. *)
Definition amount_ok (c : call) : Prop :=
  match c with
  | Deposit a _ => is_binary64 a = true
  | Withdraw a _ | Transfer a _ _ => is_binary64 a = true /\ a <> PyFloat.inf
  | _ => True
  end.

(** ** The session: the terminal, [get_valid_float_input] and [main] *)

(** What the session writes and does to the terminal, in order. *)
Inductive event :=
| Method (o : output)                 (* a line printed by a method of [ATM] *)
| Clear                               (* [os.system('cls' or 'clear')] *)
| Sleep (seconds : Z)                 (* [time.sleep(seconds)] *)
| Say (text : str)                    (* [print(text)] *)
| SayCentered (text : str) (width : Z) (* [print(text.center(width))] *)
| SayBalance (b : float)              (* [print(f"Balance: ${b:.2f}")] *)
| Ask (prompt : str).                 (* the prompt of [input] or [getpass] *)

(** The exception that [input] and [getpass.getpass] raise at the end of the
    input; nothing in the program catches it. *)
Inductive exn := EOFError.

(** How a computation ends: with a value, with an exception, or not within
    the number of loop rounds allowed to it. *)
Inductive completion (A : Type) :=
| Returned (a : A)
| Raised (e : exn)
| Unfinished.

Arguments Returned {A} a.
Arguments Raised {A} e.
Arguments Unfinished {A}.

(** The session: the instance [atm], the lines still to be typed, and the
    number of lines read so far. *)
Record world := mkWorld
  { atm : ATM
  ; stdin : list str
  ; reads : nat }.

Definition Session (A : Type) : Type := world -> completion A * world * list event.

Definition sret {A} (a : A) : Session A := fun w => (Returned a, w, []).

Definition sbind {A B} (m : Session A) (k : A -> Session B) : Session B :=
  fun w =>
    let '(c, w1, o1) := m w in
    match c with
    | Returned a => let '(c2, w2, o2) := k a w1 in (c2, w2, o1 ++ o2)
    | Raised e => (Raised e, w1, o1)
    | Unfinished => (Unfinished, w1, o1)
    end.

Definition unfinished {A} : Session A := fun w => (Unfinished, w, []).

Definition emit (e : event) : Session unit := fun w => (Returned tt, w, [e]).

(** [print(text)] of a literal. *)
Definition say (text : string) : Session unit := emit (Say (PyStr.lit text)).

(** [input(prompt)]: the prompt is written, then the next line typed is
    returned, or [EOFError] is raised when there is none. *)
Definition input (prompt : string) : Session str :=
  fun w =>
    match w.(stdin) with
    | [] => (Raised EOFError, w, [Ask (PyStr.lit prompt)])
    | line :: rest =>
        (Returned line, mkWorld w.(atm) rest (S w.(reads)),
         [Ask (PyStr.lit prompt)])
    end.

(** [getpass.getpass(prompt)]: a line typed like any other, not echoed. *)
Definition getpass (prompt : string) : Session str := input prompt.

(** A call of a method on [atm]. *)
Definition on_atm {A} (m : M A) : Session A :=
  fun w =>
    let '(a, self', out) := m w.(atm) in
    (Returned a, mkWorld self' w.(stdin) w.(reads), map Method out).

(** [atm = ATM()] *)
Definition new_atm : Session unit :=
  fun w => (Returned tt, mkWorld ATM_init w.(stdin) w.(reads), []).

Definition get_atm : Session ATM := fun w => (Returned w.(atm), w, []).

Definition completion_of {A} (r : completion A * world * list event)
  : completion A := fst (fst r).
Definition world_of {A} (r : completion A * world * list event) : world :=
  snd (fst r).
Definition events_of {A} (r : completion A * world * list event)
  : list event := snd r.

Declare Scope session_scope.
Delimit Scope session_scope with session.
Notation "x <- m ;; k" := (sbind m (fun x => k))
  (at level 61, m at next level, right associativity) : session_scope.
Notation "m ;; k" := (sbind m (fun _ => k))
  (at level 61, right associativity) : session_scope.

(** [ATM.clear_screen] *)
Definition clear_screen : Session unit := emit Clear.

(** [display_main_menu] *)
Definition display_main_menu : Session unit :=
  (emit (Say (List.repeat 61%N 40)) ;;
   emit (SayCentered (PyStr.lit "ATM SERVICES") 40) ;;
   emit (Say (List.repeat 61%N 40)) ;;
   say "  1. Check Balance" ;;
   say "  2. Deposit" ;;
   say "  3. Withdraw" ;;
   say "  4. Transfer" ;;
   say "  5. Change PIN" ;;
   say "  6. Mini Statement" ;;
   say "  7. Exit" ;;
   emit (Say (List.repeat 61%N 40)))%session.

Section Session.

(** [float(s)] on a string: the float it reads, or [None] when it raises
    [ValueError]. *)
Variable float_of_str : str -> option float.

(** The reading of [datetime.now()] once [k] lines have been read. *)
Variable clock : nat -> datetime.

Definition datetime_now : Session datetime := fun w => (Returned (clock w.(reads)), w, []).

(** [get_valid_float_input]: the loop runs at most [fuel] rounds. *)
Fixpoint get_valid_float_input (fuel : nat) (prompt : string) : Session float :=
  match fuel with
  | O => unfinished
  | S fuel' =>
      (line <- input prompt ;;
       match float_of_str line with
       | Some amount => sret amount
       | None =>
           say "Invalid input. Please enter a number." ;;
           get_valid_float_input fuel' prompt
       end)%session
  end.

(** The menu loop of [main], at most [fuel] rounds of it. *)
Fixpoint menu_loop (fuel : nat) : Session unit :=
  match fuel with
  | O => unfinished
  | S fuel' =>
      (clear_screen ;;
       display_main_menu ;;
       option <- input "Choose option: " ;;
       if PyStr.eqb option (PyStr.lit "1") then
         balance <- on_atm check_balance ;;
         emit (SayBalance balance) ;;
         input "Press Enter to continue..." ;;
         menu_loop fuel'
       else if PyStr.eqb option (PyStr.lit "2") then
         amount <- get_valid_float_input fuel' "Deposit amount: $" ;;
         t <- datetime_now ;;
         ok <- on_atm (deposit amount t) ;;
         (if ok then say "Deposit successful!" else sret tt) ;;
         input "Press Enter to continue..." ;;
         menu_loop fuel'
       else if PyStr.eqb option (PyStr.lit "3") then
         amount <- get_valid_float_input fuel' "Withdrawal amount: $" ;;
         t <- datetime_now ;;
         ok <- on_atm (withdraw amount t) ;;
         (if ok then say "Withdrawal successful!"
          else say "Insufficient funds.") ;;
         input "Press Enter to continue..." ;;
         menu_loop fuel'
       else if PyStr.eqb option (PyStr.lit "4") then
         target_account <- input "Enter target account: " ;;
         amount <- get_valid_float_input fuel' "Transfer amount: $" ;;
         t <- datetime_now ;;
         ok <- on_atm (transfer amount target_account t) ;;
         (if ok then say "Transfer successful!" else say "Transfer failed.") ;;
         input "Press Enter to continue..." ;;
         menu_loop fuel'
       else if PyStr.eqb option (PyStr.lit "5") then
         new_pin <- input "Enter new 4-digit PIN: " ;;
         t <- datetime_now ;;
         ok <- on_atm (change_pin new_pin t) ;;
         (if ok then say "PIN changed successfully!"
          else say "Invalid PIN format.") ;;
         input "Press Enter to continue..." ;;
         menu_loop fuel'
       else if PyStr.eqb option (PyStr.lit "6") then
         on_atm print_mini_statement ;;
         input "Press Enter to continue..." ;;
         menu_loop fuel'
       else if PyStr.eqb option (PyStr.lit "7") then
         say "Thank you for using our ATM."
       else
         say "Invalid option. Please try again." ;;
         input "Press Enter to continue..." ;;
         menu_loop fuel')%session
  end.

(** The PIN loop of [main], at most [fuel] rounds of it; a PIN that is
    accepted leads to the menu loop, and the session ends with it. *)
Fixpoint pin_loop (fuel : nat) : Session unit :=
  match fuel with
  | O => unfinished
  | S fuel' =>
      (pin_in <- getpass "ENTER THE PIN: " ;;
       ok <- on_atm (validate_pin pin_in) ;;
       if ok then menu_loop fuel'
       else
         self <- get_atm ;;
         if self.(pin_attempts) >=? 3 then
           say "Card blocked. Please contact customer support."
         else pin_loop fuel')%session
  end.

(** [main] *)
Definition main (fuel : nat) : Session unit :=
  (new_atm ;;
   clear_screen ;;
   emit (SayCentered (PyStr.lit "INSERT YOUR CARD") 60) ;;
   emit (Sleep 3) ;;
   pin_loop fuel)%session.

(** [main] on the lines typed: every loop round reads a line, so one
    round more than there are lines is enough. *)
Definition run_main (lines : list str) : completion unit * world * list event :=
  main (S (List.length lines)) (mkWorld ATM_init lines 0).

End Session.

(** [m], started in [w], ends within the rounds allowed to it: with a value
    and a world that satisfy [Q], or with an exception in a world that
    satisfies [E]. *)
Definition ends {A} (m : Session A) (w : world)
    (Q : A -> world -> Prop) (E : world -> Prop) : Prop :=
  match m w with
  | (Returned a, w', _) => Q a w'
  | (Raised _, w', _) => E w'
  | (Unfinished, _, _) => False
  end.

(** The events [pre], then the session [r]. *)
Definition prepend {A} (pre : list event)
    (r : completion A * world * list event) : completion A * world * list event :=
  let '(c, w, o) := r in (c, w, pre ++ o).

(** The prompt and the complaint of one round of [get_valid_float_input] on
    a line that [float] refuses. *)
Definition refused_line (prompt : string) : list event :=
  [Ask (PyStr.lit prompt); Say (PyStr.lit "Invalid input. Please enter a number.")].

(** What [main] writes before it asks for the PIN. *)
Definition main_prelude : list event :=
  [Clear; SayCentered (PyStr.lit "INSERT YOUR CARD") 60; Sleep 3].

(** The PIN prompt and the answer of [validate_pin] to a wrong PIN that
    leaves [remaining] attempts. *)
Definition wrong_pin_events (remaining : Z) : list event :=
  [Ask (PyStr.lit "ENTER THE PIN: "); Method (IncorrectPin remaining)].

(** The balance is a binary64 value that is at least 0. *)
Definition balance_in_funds (self : ATM) : Prop :=
  is_binary64 self.(balance) = true
  /\ PyFloat.leb (PyFloat.of_Z 0) self.(balance) = true.

(** For the examples of sessions: a reader of floats that knows the two
    spellings ["inf"] and ["nan"] and refuses every other line, and a clock
    that counts the lines read. *)
Definition float_inf_nan (s : str) : option float :=
  if PyStr.eqb s (PyStr.lit "inf") then Some PyFloat.inf
  else if PyStr.eqb s (PyStr.lit "nan") then Some PyFloat.nan
  else None.

Definition line_clock (k : nat) : datetime := Z.of_nat k.

(** The ranges are in increasing order, and apart. *)
Fixpoint ranges_increasing (rs : list (N * N)) : bool :=
  match rs with
  | r :: (r' :: _) as rest =>
      (N.leb (fst r) (snd r) && N.ltb (N.succ (snd r)) (fst r')
       && ranges_increasing rest)%bool
  | [r] => N.leb (fst r) (snd r)
  | [] => true
  end.

(** The number of code points in the ranges. *)
Definition ranges_size (rs : list (N * N)) : N :=
  fold_right (fun r n => (snd r - fst r + 1 + n)%N) 0%N rs.

(** Four times CIRCLED DIGIT ONE, U+2460. *)
Definition circled_ones : str := [0x2460; 0x2460; 0x2460; 0x2460]%N.

(** ** Concrete runs *)

(** The table of [str.isdigit] is in order and holds 788 code points. *)
Example digit_ranges_checked :
  ranges_increasing PyStr.digit_ranges = true
  /\ ranges_size PyStr.digit_ranges = 788%N.
Proof. split; reflexivity. Qed.

(** [str.isdigit] on digits that are not decimal, on decimal digits outside
    ASCII, on digits of a supplementary plane, and on letters. *)
Example isdigit_samples :
  PyStr.isdigit circled_ones = true
  /\ PyStr.isdigit superscript_twos = true
  /\ PyStr.isdigit [0x0661; 0x1B52; 0xFF13; 0x0DE9]%N = true
  /\ PyStr.isdigit [0x1D7CE; 0x1F10A; 0x10A40; 0x1FBF9]%N = true
  /\ PyStr.isdigit (PyStr.lit "12a4") = false
  /\ PyStr.isdigit [0x00BD; 0x0031]%N = false
  /\ PyStr.isdigit [] = false.
Proof. repeat split; reflexivity. Qed.


Example initial_balance :
  ATM_init.(balance) = S754_finite false 8796093022208000 (-43).
Proof. reflexivity. Qed.

Example initial_pin : ATM_init.(pin) = [53; 52; 55; 50]%N.
Proof. reflexivity. Qed.

(** ** Facts about float comparison *)

Lemma SFcompare_antisym (x y : float) :
  SFcompare y x = option_map CompOpp (SFcompare x y).
Proof.
  destruct x as [sx|sx| |sx mx ex]; destruct y as [sy|sy| |sy my ey]; simpl;
    try reflexivity;
    try (destruct sx; reflexivity); try (destruct sy; reflexivity);
    try (destruct sx, sy; reflexivity).
  change (Pos.compare_cont Eq my mx) with (Pos.compare my mx).
  change (Pos.compare_cont Eq mx my) with (Pos.compare mx my).
  rewrite (Z.compare_antisym ex ey), (Pos.compare_antisym mx my).
  destruct sx, sy; simpl; try reflexivity;
    destruct (ex ?= ey); simpl; try reflexivity;
    destruct (mx ?= my)%positive; reflexivity.
Qed.

(** [b < a] excludes [a <= b]. *)
Lemma ltb_not_leb (a b : float) :
  PyFloat.ltb b a = true -> PyFloat.leb a b = false.
Proof.
  unfold PyFloat.ltb, PyFloat.leb, SFltb, SFleb.
  rewrite (SFcompare_antisym b a).
  destruct (SFcompare b a) as [[ | | ]|]; simpl; congruence.
Qed.

(** [a <= b] excludes [b < a]. *)
Lemma leb_not_ltb (a b : float) :
  PyFloat.leb a b = true -> PyFloat.ltb b a = false.
Proof.
  unfold PyFloat.ltb, PyFloat.leb, SFltb, SFleb.
  rewrite (SFcompare_antisym a b).
  destruct (SFcompare a b) as [[ | | ]|]; simpl; congruence.
Qed.

(** The guard of [withdraw] and [transfer] fails on an amount that is not
    positive and on one above the balance. *)
Lemma withdraw_guard_false (a : float) (self : ATM) :
  PyFloat.leb a (PyFloat.of_Z 0) = true \/ PyFloat.ltb self.(balance) a = true ->
  withdraw_guard a self = false.
Proof.
  unfold withdraw_guard. intros [H | H].
  - rewrite (leb_not_ltb _ _ H). reflexivity.
  - rewrite (ltb_not_leb _ _ H). apply andb_false_r.
Qed.

(** ** What each method does, by the value of its guard *)

Lemma deposit_eq (a : float) (now : datetime) (self : ATM) :
  deposit a now self =
    if deposit_guard a then
      (true,
       set_transaction_history
         (self.(transaction_history) ++
            [ {| tx_type := PyStr.lit "Deposit"
               ; tx_amount := Float a
               ; tx_balance := PyFloat.add self.(balance) a
               ; tx_timestamp := now |} ])
         (set_balance (PyFloat.add self.(balance) a) self),
       [])
    else (false, self, []).
Proof.
  unfold deposit, deposit_guard, bind, get. destruct (PyFloat.ltb _ a); reflexivity.
Qed.

Lemma withdraw_eq (a : float) (now : datetime) (self : ATM) :
  withdraw a now self =
    if withdraw_guard a self then
      (true,
       set_transaction_history
         (self.(transaction_history) ++
            [ {| tx_type := PyStr.lit "Withdrawal"
               ; tx_amount := Float (PyFloat.neg a)
               ; tx_balance := PyFloat.sub self.(balance) a
               ; tx_timestamp := now |} ])
         (set_balance (PyFloat.sub self.(balance) a) self),
       [])
    else (false, self, []).
Proof.
  unfold withdraw, withdraw_guard, bind, get.
  destruct (PyFloat.ltb _ a && PyFloat.leb a _); reflexivity.
Qed.

Lemma transfer_eq (a : float) (t : str) (now : datetime) (self : ATM) :
  transfer a t now self =
    if withdraw_guard a self then
      (true,
       set_transaction_history
         (self.(transaction_history) ++
            [ {| tx_type := PyStr.lit "Transfer to " ++ t
               ; tx_amount := Float (PyFloat.neg a)
               ; tx_balance := PyFloat.sub self.(balance) a
               ; tx_timestamp := now |} ])
         (set_balance (PyFloat.sub self.(balance) a) self),
       [])
    else (false, self, []).
Proof.
  unfold transfer, withdraw_guard, bind, get.
  destruct (PyFloat.ltb _ a && PyFloat.leb a _); reflexivity.
Qed.

Lemma change_pin_eq (p : str) (now : datetime) (self : ATM) :
  change_pin p now self =
    if change_pin_guard p then
      (true,
       set_transaction_history
         (self.(transaction_history) ++
            [ {| tx_type := PyStr.lit "PIN Change"
               ; tx_amount := Int 0
               ; tx_balance := self.(balance)
               ; tx_timestamp := now |} ])
         (set_pin p self),
       [])
    else (false, self, []).
Proof.
  unfold change_pin, change_pin_guard, bind.
  destruct ((PyStr.len p =? 4) && PyStr.isdigit p); reflexivity.
Qed.

Lemma validate_pin_eq (p : str) (self : ATM) :
  validate_pin p self =
    if self.(pin_attempts) >=? self.(max_pin_attempts) then
      (false, self, [CardBlocked])
    else if PyStr.eqb p self.(pin) then
      (true, set_pin_attempts 0 self, [])
    else
      (false, set_pin_attempts (self.(pin_attempts) + 1) self,
       [IncorrectPin (self.(max_pin_attempts) - (self.(pin_attempts) + 1))]).
Proof.
  unfold validate_pin, bind, get.
  destruct (_ >=? _); [reflexivity|].
  destruct (PyStr.eqb p _); reflexivity.
Qed.

Lemma print_lines_eq (ts : list transaction) (self : ATM) :
  print_lines ts self = (tt, self, map MiniStatementLine ts).
Proof.
  induction ts as [|t ts IH]; simpl; [reflexivity|].
  unfold bind, print. rewrite IH. reflexivity.
Qed.

Lemma print_mini_statement_eq (self : ATM) :
  print_mini_statement self =
    (tt, self, MiniStatementHeader :: map MiniStatementLine (recent_transactions self)).
Proof.
  unfold print_mini_statement, bind, print, get.
  rewrite print_lines_eq. reflexivity.
Qed.

(** ** Sequencing *)

Lemma state_discard {A} (m : M A) (self : ATM) :
  state ((m ;; ret tt) self) = state (m self).
Proof.
  unfold bind, ret, state. destruct (m self) as [[a s1] o1]. reflexivity.
Qed.

Lemma state_run_cons (c : call) (cs : list call) (self : ATM) :
  state (run (c :: cs) self) = state (run cs (state (call_method c self))).
Proof.
  simpl. unfold bind, state.
  destruct (call_method c self) as [[a s1] o1]. simpl.
  destruct (run cs s1) as [[b s2] o2]. reflexivity.
Qed.

Lemma state_run_app (cs1 cs2 : list call) (self : ATM) :
  state (run (cs1 ++ cs2) self) = state (run cs2 (state (run cs1 self))).
Proof.
  revert self. induction cs1 as [|c cs1 IH]; intros self.
  - reflexivity.
  - rewrite <- app_comm_cons, !state_run_cons. apply IH.
Qed.

(** A property that every call preserves holds after every sequence of
    calls. *)
Lemma run_preserves (P : ATM -> Prop) :
  (forall c self, P self -> P (state (call_method c self))) ->
  forall cs self, P self -> P (state (run cs self)).
Proof.
  intros Hstep cs. induction cs as [|c cs IH]; intros self HP.
  - exact HP.
  - rewrite state_run_cons. apply IH, Hstep, HP.
Qed.

Lemma reachable_init : reachable ATM_init.
Proof. exists []. reflexivity. Qed.

Lemma reachable_step (c : call) (self : ATM) :
  reachable self -> reachable (state (call_method c self)).
Proof.
  intros [cs <-]. exists (cs ++ [c]).
  rewrite state_run_app, state_run_cons. reflexivity.
Qed.

(** Induction over the reachable states. *)
Lemma reachable_invariant (P : ATM -> Prop) :
  P ATM_init ->
  (forall c self, P self -> P (state (call_method c self))) ->
  forall self, reachable self -> P self.
Proof.
  intros Hinit Hstep self [cs <-]. now apply run_preserves.
Qed.

(** The state a call leaves, method by method. *)
Lemma state_call_method (c : call) (self : ATM) :
  state (call_method c self) =
    match c with
    | ValidatePin p => state (validate_pin p self)
    | CheckBalance => self
    | Deposit a now => state (deposit a now self)
    | Withdraw a now => state (withdraw a now self)
    | Transfer a t now => state (transfer a t now self)
    | ChangePin p now => state (change_pin p now self)
    | PrintMiniStatement => self
    end.
Proof.
  destruct c; simpl; try apply state_discard.
  rewrite print_mini_statement_eq. reflexivity.
Qed.

Ltac by_guards :=
  repeat match goal with
         | |- context [if ?g then _ else _] => destruct g
         end;
  simpl; auto.

(** No call touches the card number or the attempt limit, and only
    [validate_pin] touches the attempt counter. *)
Lemma call_method_frame (c : call) (self : ATM) :
  let self' := state (call_method c self) in
  self'.(card_number) = self.(card_number)
  /\ self'.(max_pin_attempts) = self.(max_pin_attempts)
  /\ ((forall p, c <> ValidatePin p) -> self'.(pin_attempts) = self.(pin_attempts)).
Proof.
  cbv zeta. rewrite state_call_method.
  destruct c; try (repeat split; reflexivity).
  - rewrite validate_pin_eq. by_guards; repeat split; auto;
      intros H; exfalso; exact (H _ eq_refl).
  - rewrite deposit_eq. by_guards.
  - rewrite withdraw_eq. by_guards.
  - rewrite transfer_eq. by_guards.
  - rewrite change_pin_eq. by_guards.
Qed.

Lemma PyStr_eqb_refl (s : str) : PyStr.eqb s s = true.
Proof.
  induction s as [|c s IH]; simpl; [reflexivity|].
  rewrite N.eqb_refl. exact IH.
Qed.

Lemma PyStr_eqb_eq (s t : str) : PyStr.eqb s t = true <-> s = t.
Proof.
  split.
  - revert t. induction s as [|c s IH]; intros [|d t]; simpl; try discriminate; auto.
    intros H. apply andb_true_iff in H as [Hc Hs].
    apply N.eqb_eq in Hc. subst d. f_equal. now apply IH.
  - intros <-. apply PyStr_eqb_refl.
Qed.

(** A call keeps a blocked card blocked. *)
Lemma blocked_call_method (c : call) (self : ATM) :
  blocked self -> blocked (state (call_method c self)).
Proof.
  unfold blocked. intros Hb.
  destruct (call_method_frame c self) as (_ & Hmax & Hatt).
  rewrite Hmax.
  destruct c; try (rewrite Hatt; [exact Hb | discriminate]).
  rewrite state_call_method, validate_pin_eq.
  destruct (_ >=? _) eqn:Hge; [exact Hb | lia].
Qed.

(** What [validate_pin] does to a blocked card. *)
Lemma validate_pin_blocked (p : str) (self : ATM) :
  blocked self -> validate_pin p self = (false, self, [CardBlocked]).
Proof.
  unfold blocked. intros Hb. rewrite validate_pin_eq.
  destruct (_ >=? _) eqn:Hge; [reflexivity | lia].
Qed.

Lemma attempts_in_bounds_call_method (c : call) (self : ATM) :
  attempts_in_bounds self -> attempts_in_bounds (state (call_method c self)).
Proof.
  unfold attempts_in_bounds. intros [Hmax Hb].
  destruct (call_method_frame c self) as (_ & Hmax' & Hatt).
  rewrite Hmax'. split; [exact Hmax|].
  destruct c; try (rewrite Hatt; [exact Hb | discriminate]).
  rewrite state_call_method, validate_pin_eq.
  destruct (_ >=? _) eqn:Hge; [exact Hb|].
  destruct (PyStr.eqb _ _); simpl; lia.
Qed.

(** ** PIN validation and lockout *)

(** Claim C1.  Once [pin_attempts] has reached [max_pin_attempts], the card
    stays blocked through every later sequence of calls, and every
    [validate_pin] call from then on returns [False] and leaves the instance
    as it was, whatever PIN is entered, the stored one included; in every
    reachable state the limit is 3 and [pin_attempts] lies between 0 and the
    limit; and on a card that is not blocked, [validate_pin] with the stored
    PIN returns [True] and sets [pin_attempts] to 0. *)
Theorem validate_pin_lockout :
  (forall (self : ATM) (cs : list call) (p : str),
      blocked self ->
      blocked (state (run cs self))
      /\ validate_pin p (state (run cs self))
         = (false, state (run cs self), [CardBlocked]))
  /\ (forall (self : ATM) (ps : list str),
         blocked self -> state (run (map ValidatePin ps) self) = self)
  /\ (forall self : ATM,
         reachable self ->
         self.(max_pin_attempts) = 3
         /\ 0 <= self.(pin_attempts) <= self.(max_pin_attempts))
  /\ (forall self : ATM,
         ~ blocked self ->
         validate_pin self.(pin) self = (true, set_pin_attempts 0 self, [])).
Proof.
  split; [|split; [|split]].
  - intros self cs p Hb.
    assert (Hb' : blocked (state (run cs self)))
      by (apply (run_preserves blocked); [exact blocked_call_method | exact Hb]).
    split; [exact Hb' | exact (validate_pin_blocked p _ Hb')].
  - intros self ps Hb. induction ps as [|p ps IH]; [reflexivity|].
    simpl map. rewrite state_run_cons, state_call_method.
    rewrite (validate_pin_blocked p self Hb). exact IH.
  - apply (reachable_invariant attempts_in_bounds).
    + unfold attempts_in_bounds. simpl. lia.
    + exact attempts_in_bounds_call_method.
  - intros self Hnb. unfold blocked in Hnb. rewrite validate_pin_eq.
    destruct (_ >=? _) eqn:Hge; [lia|].
    rewrite PyStr_eqb_refl. reflexivity.
Qed.

Lemma validate_pin_lockout_witness :
  validate_pin (PyStr.lit "5472") (set_pin_attempts 3 ATM_init)
    = (false, set_pin_attempts 3 ATM_init, [CardBlocked])
  /\ validate_pin (PyStr.lit "5472") ATM_init = (true, ATM_init, []).
Proof.
  split.
  - refine (proj2 (proj1 validate_pin_lockout (set_pin_attempts 3 ATM_init) []
                         (PyStr.lit "5472") _)).
    unfold blocked. simpl. lia.
  - refine (proj2 (proj2 (proj2 validate_pin_lockout)) ATM_init _).
    unfold blocked. simpl. lia.
Defined.

(** Three wrong PINs in a row block the card, and the right PIN is then
    refused. *)
Example three_wrong_pins_then_right_pin :
  let wrong := PyStr.lit "0000" in
  let self := state (run [ValidatePin wrong; ValidatePin wrong; ValidatePin wrong] ATM_init) in
  self.(pin_attempts) = 3
  /\ validate_pin ATM_init.(pin) self = (false, self, [CardBlocked]).
Proof. split; reflexivity. Qed.

(** ** Withdrawal and deposit *)

(** Claim C2.  For every amount [a]: when [0 < a <= balance], [withdraw]
    returns [True], the new balance is the float difference [balance - a],
    and the history grows by exactly one entry, of type ['Withdrawal'], with
    amount [-a] and the new balance as its balance; when [a <= 0] or
    [a > balance], it returns [False] and the instance is as before. *)
Theorem withdraw_correct (a : float) (now : datetime) (self : ATM) :
  let r := withdraw a now self in
  (PyFloat.ltb (PyFloat.of_Z 0) a = true /\ PyFloat.leb a self.(balance) = true ->
     result r = true
     /\ (state r).(balance) = PyFloat.sub self.(balance) a
     /\ (state r).(transaction_history) =
          self.(transaction_history) ++
            [ {| tx_type := PyStr.lit "Withdrawal"
               ; tx_amount := Float (PyFloat.neg a)
               ; tx_balance := (state r).(balance)
               ; tx_timestamp := now |} ])
  /\ (PyFloat.leb a (PyFloat.of_Z 0) = true \/ PyFloat.ltb self.(balance) a = true ->
        result r = false /\ state r = self).
Proof.
  cbv zeta. rewrite withdraw_eq. split.
  - intros [H0 Hb]. unfold withdraw_guard. rewrite H0, Hb. simpl.
    repeat split; reflexivity.
  - intros H. rewrite (withdraw_guard_false a self H). split; reflexivity.
Qed.

Lemma withdraw_correct_witness :
  (state (withdraw (PyFloat.of_Z 200) 7 ATM_init)).(balance) = PyFloat.of_Z 800
  /\ state (withdraw (PyFloat.of_Z 1500) 7 ATM_init) = ATM_init.
Proof.
  split.
  - exact (proj1 (proj2 (proj1 (withdraw_correct (PyFloat.of_Z 200) 7 ATM_init)
                            (conj eq_refl eq_refl)))).
  - exact (proj2 (proj2 (withdraw_correct (PyFloat.of_Z 1500) 7 ATM_init)
                        (or_intror eq_refl))).
Defined.

(** Claim C3.  For every amount [a]: when [a > 0], [deposit] returns [True],
    the new balance is the float sum [balance + a], and the history grows by
    exactly one entry, of type ['Deposit'], with amount [a] and the new
    balance as its balance; when [a <= 0], it returns [False] and the
    instance is as before. *)
Theorem deposit_correct (a : float) (now : datetime) (self : ATM) :
  let r := deposit a now self in
  (PyFloat.ltb (PyFloat.of_Z 0) a = true ->
     result r = true
     /\ (state r).(balance) = PyFloat.add self.(balance) a
     /\ (state r).(transaction_history) =
          self.(transaction_history) ++
            [ {| tx_type := PyStr.lit "Deposit"
               ; tx_amount := Float a
               ; tx_balance := (state r).(balance)
               ; tx_timestamp := now |} ])
  /\ (PyFloat.leb a (PyFloat.of_Z 0) = true ->
        result r = false /\ state r = self).
Proof.
  cbv zeta. rewrite deposit_eq. unfold deposit_guard. split.
  - intros ->. repeat split; reflexivity.
  - intros H. rewrite (leb_not_ltb _ _ H). split; reflexivity.
Qed.

Lemma deposit_correct_witness :
  (state (deposit (PyFloat.of_Z 200) 7 ATM_init)).(balance) = PyFloat.of_Z 1200
  /\ state (deposit (PyFloat.neg (PyFloat.of_Z 5)) 7 ATM_init) = ATM_init.
Proof.
  split.
  - exact (proj1 (proj2 (proj1 (deposit_correct (PyFloat.of_Z 200) 7 ATM_init)
                            eq_refl))).
  - exact (proj2 (proj2 (deposit_correct (PyFloat.neg (PyFloat.of_Z 5)) 7 ATM_init)
                        eq_refl)).
Defined.

(** The scenario of a deposit, a refused withdrawal and a withdrawal. *)
Example deposit_withdraw_scenario :
  let s1 := state (deposit (PyFloat.of_Z 200) 1 ATM_init) in
  let r2 := withdraw (PyFloat.of_Z 1500) 2 s1 in
  let r3 := withdraw (PyFloat.of_Z 200) 3 (state r2) in
  s1.(balance) = PyFloat.of_Z 1200
  /\ List.length s1.(transaction_history) = 1%nat
  /\ result r2 = false /\ (state r2).(balance) = PyFloat.of_Z 1200
  /\ result r3 = true /\ (state r3).(balance) = PyFloat.of_Z 1000
  /\ List.length (state r3).(transaction_history) = 2%nat.
Proof. repeat split; reflexivity. Qed.

(** ** Transfer against withdrawal *)

(** Claim C6.  For every amount and every target string, the empty one
    included, [transfer] returns the boolean [withdraw] returns on the same
    instance and leaves the same balance; neither depends on the target. *)
Theorem transfer_same_as_withdraw
    (a : float) (t : str) (now : datetime) (self : ATM) :
  result (transfer a t now self) = result (withdraw a now self)
  /\ (state (transfer a t now self)).(balance)
     = (state (withdraw a now self)).(balance)
  /\ result (transfer a t now self) = withdraw_guard a self
  /\ (forall t' : str,
         result (transfer a t' now self) = result (transfer a t now self)
         /\ (state (transfer a t' now self)).(balance)
            = (state (transfer a t now self)).(balance)).
Proof.
  split; [|split; [|split]]; try intros t';
    rewrite ?transfer_eq, ?withdraw_eq;
    destruct (withdraw_guard a self); try split; reflexivity.
Qed.

Example transfer_to_empty_target :
  result (transfer (PyFloat.of_Z 300) [] 4 ATM_init) = true
  /\ (state (transfer (PyFloat.of_Z 300) [] 4 ATM_init)).(balance) = PyFloat.of_Z 700.
Proof. split; reflexivity. Qed.

(** ** The attempt counter and the ledger *)

(** Claim C9.  [deposit], [withdraw], [transfer] and [change_pin] do not
    look at [pin_attempts]: on two instances that differ only in
    [pin_attempts], a blocked one included, the same call returns the same
    boolean and leaves the same balance, PIN and history. *)
Theorem ledger_ignores_pin_attempts (self : ATM) (n : Z) (now : datetime) :
  (forall a, same_ledger (deposit a now self)
                         (deposit a now (set_pin_attempts n self)))
  /\ (forall a, same_ledger (withdraw a now self)
                            (withdraw a now (set_pin_attempts n self)))
  /\ (forall a t, same_ledger (transfer a t now self)
                              (transfer a t now (set_pin_attempts n self)))
  /\ (forall p, same_ledger (change_pin p now self)
                            (change_pin p now (set_pin_attempts n self))).
Proof.
  unfold same_ledger. split; [|split; [|split]]; intros.
  - rewrite !deposit_eq. destruct (deposit_guard a); repeat split; reflexivity.
  - rewrite !withdraw_eq.
    change (withdraw_guard a (set_pin_attempts n self)) with (withdraw_guard a self).
    destruct (withdraw_guard a self); repeat split; reflexivity.
  - rewrite !transfer_eq.
    change (withdraw_guard a (set_pin_attempts n self)) with (withdraw_guard a self).
    destruct (withdraw_guard a self); repeat split; reflexivity.
  - rewrite !change_pin_eq. destruct (change_pin_guard p); repeat split; reflexivity.
Qed.

(** A blocked card still takes a withdrawal. *)
Example withdraw_on_blocked_card :
  let self := set_pin_attempts 3 ATM_init in
  blocked self
  /\ result (withdraw (PyFloat.of_Z 100) 5 self) = true
  /\ (state (withdraw (PyFloat.of_Z 100) 5 self)).(balance) = PyFloat.of_Z 900.
Proof. cbv zeta. unfold blocked. repeat split; simpl; try reflexivity; lia. Qed.

(** ** Frame conditions *)

(** Claim C10.  No call changes [card_number], through any sequence of
    calls; [validate_pin] leaves the balance, the PIN, the card number and
    the history as they were; [deposit], [withdraw] and [transfer] leave the
    PIN and [pin_attempts] as they were; [change_pin] leaves the balance and
    [pin_attempts] as they were. *)
Theorem frame_conditions (self : ATM) (now : datetime) :
  (forall cs, (state (run cs self)).(card_number) = self.(card_number))
  /\ (forall p,
         let self' := state (validate_pin p self) in
         self'.(balance) = self.(balance) /\ self'.(pin) = self.(pin)
         /\ self'.(card_number) = self.(card_number)
         /\ self'.(transaction_history) = self.(transaction_history))
  /\ (forall a,
         let self' := state (deposit a now self) in
         self'.(pin) = self.(pin) /\ self'.(pin_attempts) = self.(pin_attempts))
  /\ (forall a,
         let self' := state (withdraw a now self) in
         self'.(pin) = self.(pin) /\ self'.(pin_attempts) = self.(pin_attempts))
  /\ (forall a t,
         let self' := state (transfer a t now self) in
         self'.(pin) = self.(pin) /\ self'.(pin_attempts) = self.(pin_attempts))
  /\ (forall p,
         let self' := state (change_pin p now self) in
         self'.(balance) = self.(balance)
         /\ self'.(pin_attempts) = self.(pin_attempts)).
Proof.
  split; [|split; [|split; [|split; [|split]]]]; cbv zeta; intros.
  - apply (run_preserves (fun s => card_number s = card_number self));
      [|reflexivity].
    intros c s Hs. destruct (call_method_frame c s) as (-> & _). exact Hs.
  - rewrite validate_pin_eq. by_guards.
  - rewrite deposit_eq. by_guards.
  - rewrite withdraw_eq. by_guards.
  - rewrite transfer_eq. by_guards.
  - rewrite change_pin_eq. by_guards.
Qed.

(** ** The mini statement *)

Lemma slice_from_minus_5 {A} (l : list A) :
  slice_from (-5) l = skipn (List.length l - 5) l.
Proof.
  unfold slice_from. change (-5 <? 0) with true. cbv iota.
  f_equal. lia.
Qed.

Lemma last_skipn {A} (n : nat) (l : list A) (d : A) :
  (n < List.length l)%nat -> last (skipn n l) d = last l d.
Proof.
  revert l. induction n as [|n IH]; intros l Hn; [reflexivity|].
  destruct l as [|x l]; simpl in Hn; [lia|].
  simpl skipn. rewrite IH by lia.
  destruct l as [|y l]; [simpl in Hn; lia | reflexivity].
Qed.

(** Claim C8.  In every state, hence after every sequence of calls, the
    mini statement prints the transactions of [recent_transactions] in their
    order; these are at most 5, exactly [min 5 (len history)] of them; they
    are the end of the history, in the order of the history, so the oldest
    of the window comes first and the last recorded transaction is the last
    one shown; and with an empty history there are none. *)
Theorem mini_statement_window (self : ATM) :
  let h := self.(transaction_history) in
  let w := recent_transactions self in
  printed (print_mini_statement self)
    = MiniStatementHeader :: map MiniStatementLine w
  /\ (List.length w <= 5)%nat
  /\ List.length w = Nat.min 5 (List.length h)
  /\ w = skipn (List.length h - Nat.min 5 (List.length h)) h
  /\ h = firstn (List.length h - List.length w) h ++ w
  /\ (h <> [] -> w <> [] /\ forall d, last w d = last h d)
  /\ (h = [] -> w = []).
Proof.
  cbv zeta. rewrite print_mini_statement_eq. unfold recent_transactions.
  rewrite slice_from_minus_5.
  set (h := transaction_history self).
  assert (Hlen : List.length (skipn (List.length h - 5) h)
                 = Nat.min 5 (List.length h))
    by (rewrite length_skipn; lia).
  split; [reflexivity|].
  split; [lia|].
  split; [exact Hlen|].
  split; [f_equal; lia|].
  split.
  { rewrite Hlen.
    replace (List.length h - Nat.min 5 (List.length h))%nat
      with (List.length h - 5)%nat by lia.
    symmetry. apply firstn_skipn. }
  split.
  - intros Hne.
    assert (Hpos : (0 < List.length h)%nat)
      by (destruct h; [contradiction | simpl; lia]).
    split.
    + intros Hw. rewrite Hw in Hlen.
      change (0 = Nat.min 5 (List.length h))%nat in Hlen. lia.
    + intros d. apply last_skipn. lia.
  - intros ->. reflexivity.
Qed.

Lemma mini_statement_window_witness :
  let self := state (run six_deposits ATM_init) in
  map tx_timestamp (recent_transactions self) = [2; 3; 4; 5; 6]
  /\ (forall d, last (recent_transactions self) d
                = last self.(transaction_history) d)
  /\ recent_transactions ATM_init = [].
Proof.
  cbv zeta. split; [reflexivity|]. split.
  - refine (proj2 (proj1 (proj2 (proj2 (proj2 (proj2 (proj2
             (mini_statement_window (state (run six_deposits ATM_init)))))))) _)).
    vm_compute. discriminate.
  - exact (proj2 (proj2 (proj2 (proj2 (proj2 (proj2
             (mini_statement_window ATM_init)))))) eq_refl).
Defined.

(** ** Rounding keeps the sign *)

Section RoundingSign.

Variables prec emax : Z.

Lemma shr_1_nonneg (mrs : shr_record) :
  0 <= shr_m mrs -> 0 <= shr_m (shr_1 mrs).
Proof.
  destruct mrs as [m r s]. simpl.
  destruct m as [|[p|p|]|p]; simpl; lia.
Qed.

Lemma iter_pos_shr_1_nonneg (p : positive) :
  forall mrs, 0 <= shr_m mrs -> 0 <= shr_m (iter_pos shr_1 p mrs).
Proof.
  induction p as [p IH|p IH|]; simpl; intros mrs H.
  - apply IH, IH, shr_1_nonneg, H.
  - apply IH, IH, H.
  - apply shr_1_nonneg, H.
Qed.

Lemma shr_m_of_loc (m : Z) (l : location) : shr_m (shr_record_of_loc m l) = m.
Proof. destruct l as [|[ | | ]]; reflexivity. Qed.

Lemma shr_fexp_nonneg (m e : Z) (l : location) :
  0 <= m -> 0 <= shr_m (fst (shr_fexp prec emax m e l)).
Proof.
  intros H. unfold shr_fexp, shr.
  destruct (fexp prec emax (Zdigits2 m + e) - e) as [|p|p]; simpl;
    try (rewrite shr_m_of_loc; exact H).
  apply iter_pos_shr_1_nonneg. rewrite shr_m_of_loc. exact H.
Qed.

Lemma round_nearest_even_nonneg (m : Z) (l : location) :
  0 <= m -> 0 <= round_nearest_even m l.
Proof.
  intros H. destruct l as [|[ | | ]]; simpl; try destruct (Z.even m); lia.
Qed.

(** Rounding a non-negative mantissa gives a zero, a finite number or an
    infinity of the sign asked for, never a NaN. *)
Lemma binary_round_aux_sign (sx : bool) (mx ex : Z) (lx : location) :
  0 <= mx ->
  PyFloat.has_sign sx (binary_round_aux prec emax sx mx ex lx) = true.
Proof.
  intros H. unfold binary_round_aux.
  pose proof (shr_fexp_nonneg mx ex lx H) as H1.
  destruct (shr_fexp prec emax mx ex lx) as [mrs' e']. simpl in H1.
  pose proof (shr_fexp_nonneg _ e' loc_Exact
                (round_nearest_even_nonneg _ (loc_of_shr_record mrs') H1)) as H2.
  destruct (shr_fexp prec emax _ e' loc_Exact) as [mrs'' e'']. simpl in H2.
  destruct (shr_m mrs'') as [|m|m]; [| |lia]; simpl.
  - apply eqb_reflx.
  - destruct (e'' <=? emax - prec); simpl; apply eqb_reflx.
Qed.

Lemma binary_round_sign (sx : bool) (mx : positive) (ex : Z) :
  PyFloat.has_sign sx (binary_round prec emax sx mx ex) = true.
Proof.
  unfold binary_round.
  destruct (shl_align mx ex _) as [mz ez].
  apply binary_round_aux_sign. lia.
Qed.

Lemma binary_normalize_not_nan (m e : Z) (szero : bool) :
  PyFloat.is_nan (binary_normalize prec emax m e szero) = false.
Proof.
  destruct m as [|p|p]; simpl; [reflexivity| |].
  - pose proof (binary_round_sign false p e) as H.
    destruct (binary_round prec emax false p e); simpl in *; congruence.
  - pose proof (binary_round_sign true p e) as H.
    destruct (binary_round prec emax true p e); simpl in *; congruence.
Qed.

End RoundingSign.

(** A float is positive when it is a finite number or an infinity of sign
    bit 0. *)
Lemma ltb_zero_inv (a : float) :
  PyFloat.ltb (PyFloat.of_Z 0) a = true ->
  a = PyFloat.inf \/ exists m e, a = S754_finite false m e.
Proof.
  destruct a as [s|[|]| |[|] m e]; try discriminate; eauto.
Qed.

(** A float is at least 0 when it is a zero or positive. *)
Lemma leb_zero_inv (b : float) :
  PyFloat.leb (PyFloat.of_Z 0) b = true ->
  (exists s, b = S754_zero s) \/ b = PyFloat.inf
  \/ exists m e, b = S754_finite false m e.
Proof.
  destruct b as [s|[|]| |[|] m e]; try discriminate; eauto.
Qed.

(** A deposit keeps a balance that is at least 0 at least 0, whatever the
    amount. *)
Lemma deposit_keeps_balance_nonneg (a : float) (now : datetime) (self : ATM) :
  PyFloat.leb (PyFloat.of_Z 0) self.(balance) = true ->
  PyFloat.leb (PyFloat.of_Z 0) (state (deposit a now self)).(balance) = true.
Proof.
  intros Hb. rewrite deposit_eq. unfold deposit_guard.
  destruct (PyFloat.ltb _ a) eqn:Ha; [|exact Hb]. simpl.
  apply ltb_zero_inv in Ha. apply leb_zero_inv in Hb.
  destruct Ha as [-> | (ma & ea & ->)];
    destruct Hb as [[s ->] | [-> | (mb & eb & ->)]]; try reflexivity.
  unfold PyFloat.add, SFadd. cbn [cond_Zopp].
  match goal with
  | |- context [binary_normalize _ _ (Z.pos ?x + Z.pos ?y) ?e _] =>
      change (Z.pos x + Z.pos y) with (Z.pos (x + y));
      pose proof (binary_round_sign PyFloat.prec PyFloat.emax false (x + y) e) as H
  end.
  cbn [binary_normalize].
  destruct (binary_round _ _ false _ _) as [s|s| |s m e];
    try destruct s; simpl in H; try discriminate; reflexivity.
Qed.

(** A withdrawal that passes its guard turns a balance that is a number
    into one that is not only when the amount and the balance are both the
    positive infinity. *)
Lemma withdraw_nan_only_at_infinity (a : float) (now : datetime) (self : ATM) :
  PyFloat.is_nan self.(balance) = false ->
  withdraw_guard a self = true ->
  PyFloat.is_nan (state (withdraw a now self)).(balance) = true ->
  a = PyFloat.inf /\ self.(balance) = PyFloat.inf.
Proof.
  intros Hb Hg. rewrite withdraw_eq, Hg. simpl.
  unfold withdraw_guard in Hg. apply andb_true_iff in Hg as [Ha Hle].
  apply ltb_zero_inv in Ha. destruct Ha as [-> | (ma & ea & ->)].
  - destruct (balance self) as [s|[|]| |s m e]; try discriminate.
    intros _. split; reflexivity.
  - destruct (balance self) as [s|s| |s m e]; try discriminate.
    unfold PyFloat.sub, SFsub.
    rewrite binary_normalize_not_nan. discriminate.
Qed.

(** ** The sign of the balance *)

(** Claim C4, at the input where the code leaves it.  [float(input())]
    reads ["inf"] as the float infinity.  A deposit of infinity passes the
    guard [amount > 0] and makes the balance infinite; a withdrawal of
    infinity then passes the guard [0 < amount <= self.balance], and the
    balance becomes [inf - inf], which is not a number: [balance >= 0] is
    false in a state reached from a fresh instance by two calls. *)
Theorem balance_not_a_number_after_infinite_amounts :
  let s1 := state (call_method (Deposit PyFloat.inf 1) ATM_init) in
  let s2 := state (call_method (Withdraw PyFloat.inf 2) s1) in
  result (deposit PyFloat.inf 1 ATM_init) = true
  /\ s1.(balance) = PyFloat.inf
  /\ result (withdraw PyFloat.inf 2 s1) = true
  /\ s2.(balance) = PyFloat.nan
  /\ PyFloat.leb (PyFloat.of_Z 0) s2.(balance) = false
  /\ reachable s2.
Proof.
  cbv zeta. repeat split; try reflexivity.
  exists [Deposit PyFloat.inf 1; Withdraw PyFloat.inf 2]. reflexivity.
Qed.

(** Once the balance is not a number, it stays so: no withdrawal or
    transfer passes its guard, and a deposit adds to it. *)
Lemma balance_nan_is_sticky (c : call) (self : ATM) :
  self.(balance) = PyFloat.nan ->
  (state (call_method c self)).(balance) = PyFloat.nan.
Proof.
  intros Hnan. rewrite state_call_method.
  destruct c; try exact Hnan.
  - rewrite validate_pin_eq. by_guards.
  - rewrite deposit_eq. destruct (deposit_guard amount); simpl; [|exact Hnan].
    rewrite Hnan. reflexivity.
  - rewrite withdraw_eq. unfold withdraw_guard. rewrite Hnan.
    replace (PyFloat.leb amount PyFloat.nan) with false
      by (destruct amount; reflexivity).
    rewrite andb_false_r. exact Hnan.
  - rewrite transfer_eq. unfold withdraw_guard. rewrite Hnan.
    replace (PyFloat.leb amount PyFloat.nan) with false
      by (destruct amount; reflexivity).
    rewrite andb_false_r. exact Hnan.
  - rewrite change_pin_eq. by_guards.
Qed.

(** ** PIN change *)

Lemma change_pin_result (p : str) (now : datetime) (self : ATM) :
  result (change_pin p now self) = true
  <-> PyStr.len p = 4 /\ PyStr.isdigit p = true.
Proof.
  rewrite change_pin_eq. unfold change_pin_guard.
  destruct (PyStr.len p =? 4) eqn:Hlen; simpl.
  - apply Z.eqb_eq in Hlen.
    destruct (PyStr.isdigit p); simpl; split; intros H;
      try discriminate; try (split; congruence); try reflexivity.
    destruct H; discriminate.
  - apply Z.eqb_neq in Hlen. split; [discriminate | intros [H _]; contradiction].
Qed.

(** On ASCII characters [str.isdigit] tests for ['0'] .. ['9']. *)
Lemma char_isdigit_ascii (c : PyStr.codepoint) :
  (c < 0x80)%N -> PyStr.char_isdigit c = PyStr.ascii_digit c.
Proof.
  intros Hc. unfold PyStr.char_isdigit.
  change PyStr.digit_ranges
    with ((0x30, 0x39)%N :: List.tl PyStr.digit_ranges).
  cbn [existsb].
  replace (existsb (PyStr.in_range c) (List.tl PyStr.digit_ranges)) with false.
  - apply orb_false_r.
  - symmetry. apply not_true_is_false. intros H.
    apply existsb_exists in H as (r & Hin & Hr).
    unfold PyStr.in_range in Hr. apply andb_true_iff in Hr as [Hlo _].
    apply N.leb_le in Hlo.
    simpl in Hin.
    repeat (destruct Hin as [<- | Hin]; [simpl in Hlo; lia|]).
    exact Hin.
Qed.

Lemma isdigit_ascii (p : str) :
  Forall (fun c => (c < 0x80)%N) p -> p <> [] ->
  PyStr.isdigit p = forallb PyStr.ascii_digit p.
Proof.
  intros Hall Hne. destruct p as [|c p]; [contradiction|].
  unfold PyStr.isdigit. clear Hne.
  induction Hall as [|d q Hd Hq IH]; [reflexivity|].
  simpl. rewrite (char_isdigit_ascii d Hd), IH. reflexivity.
Qed.

(** On a string of ASCII characters [change_pin] succeeds exactly on four
    characters of ['0'] .. ['9']. *)
Lemma change_pin_ascii (p : str) (now : datetime) (self : ATM) :
  Forall (fun c => (c < 0x80)%N) p ->
  (result (change_pin p now self) = true
   <-> PyStr.len p = 4 /\ forallb PyStr.ascii_digit p = true).
Proof.
  intros Hall. rewrite change_pin_result.
  destruct p as [|c p].
  - split; intros [H _]; discriminate.
  - rewrite (isdigit_ascii (c :: p) Hall) by discriminate. reflexivity.
Qed.

(** Claim C5, at the input where the code leaves it.  [str.isdigit] is true
    of the superscript digits, which are none of ['0'] .. ['9']:
    [change_pin] takes a string of four of them, returns [True], stores it
    as the PIN and records the change. *)
Theorem change_pin_accepts_superscript_digits :
  PyStr.len superscript_twos = 4
  /\ forallb PyStr.ascii_digit superscript_twos = false
  /\ change_pin superscript_twos 8 ATM_init =
       (true,
        set_transaction_history
          [ {| tx_type := PyStr.lit "PIN Change"
             ; tx_amount := Int 0
             ; tx_balance := ATM_init.(balance)
             ; tx_timestamp := 8 |} ]
          (set_pin superscript_twos ATM_init),
        []).
Proof. repeat split; reflexivity. Qed.

(** The scenario of a refused and an accepted PIN change. *)
Example change_pin_scenario :
  let r1 := change_pin (PyStr.lit "12a4") 1 ATM_init in
  let r2 := change_pin (PyStr.lit "9999") 2 (state r1) in
  result r1 = false /\ (state r1).(pin) = PyStr.lit "5472"
  /\ result r2 = true /\ (state r2).(pin) = PyStr.lit "9999".
Proof. repeat split; reflexivity. Qed.

(** ** Refused calls *)

(** Claim C7, at the input where the code leaves it.  The guard of a PIN
    change is four characters, each one of ['0'] .. ['9'].  The string of
    four superscript twos does not meet it, and [change_pin] does not refuse
    it: the call returns [True], the PIN is replaced by a string that is not
    the PIN before, and the history has one entry more.  The test in the
    code, [str.isdigit], takes these characters for digits. *)
Theorem change_pin_outside_guard_has_effects :
  let r := change_pin superscript_twos 8 ATM_init in
  ((PyStr.len superscript_twos =? 4)
   && forallb PyStr.ascii_digit superscript_twos) = false
  /\ result r = true
  /\ (state r).(pin) = superscript_twos
  /\ PyStr.eqb (state r).(pin) ATM_init.(pin) = false
  /\ List.length (state r).(transaction_history)
     = S (List.length ATM_init.(transaction_history))
  /\ printed r = [].
Proof. cbv zeta. repeat split; reflexivity. Qed.

(** A call whose guard does not hold returns [False] and leaves the
    instance exactly as it was, balance, PIN, attempt counter and history,
    and prints nothing: for [deposit], an amount that is not above 0; for
    [withdraw] and [transfer], an amount that is not above 0 or not within
    the balance; for [change_pin], on a string of ASCII characters, a length
    other than 4 or a character outside ['0'] .. ['9']. *)
Lemma refused_call_leaves_instance (self : ATM) (now : datetime) :
  (forall a : float,
      deposit_guard a = false -> deposit a now self = (false, self, []))
  /\ (forall a : float,
         withdraw_guard a self = false ->
         withdraw a now self = (false, self, []))
  /\ (forall (a : float) (t : str),
         withdraw_guard a self = false ->
         transfer a t now self = (false, self, []))
  /\ (forall p : str,
         Forall (fun c => (c < 0x80)%N) p ->
         ((PyStr.len p =? 4) && forallb PyStr.ascii_digit p) = false ->
         change_pin p now self = (false, self, [])).
Proof.
  split; [|split; [|split]].
  - intros a Hg. rewrite deposit_eq, Hg. reflexivity.
  - intros a Hg. rewrite withdraw_eq, Hg. reflexivity.
  - intros a t Hg. rewrite transfer_eq, Hg. reflexivity.
  - intros p Hascii Hg. rewrite change_pin_eq.
    replace (change_pin_guard p) with false; [reflexivity|].
    unfold change_pin_guard. destruct p as [|c p]; [reflexivity|].
    rewrite (isdigit_ascii (c :: p) Hascii) by discriminate.
    symmetry. exact Hg.
Qed.

Example refused_calls :
  deposit PyFloat.nan 9 ATM_init = (false, ATM_init, [])
  /\ withdraw (PyFloat.of_Z 1500) 9 ATM_init = (false, ATM_init, [])
  /\ transfer (PyFloat.of_Z 0) (PyStr.lit "42") 9 ATM_init = (false, ATM_init, [])
  /\ change_pin (PyStr.lit "12a4") 9 ATM_init = (false, ATM_init, []).
Proof. repeat split; reflexivity. Qed.

(** ** Counting wrong PINs *)

(** Wrong PINs in a row move the counter up one at a time until the limit,
    and touch nothing else: after the wrong PINs [ps], the instance is the
    one before with [pin_attempts] at [min (max_pin_attempts,
    pin_attempts + len ps)]. *)
Theorem wrong_pins_count (self : ATM) (ps : list str) :
  self.(pin_attempts) <= self.(max_pin_attempts) ->
  Forall (fun p => p <> self.(pin)) ps ->
  state (run (map ValidatePin ps) self)
  = set_pin_attempts
      (Z.min self.(max_pin_attempts)
             (self.(pin_attempts) + Z.of_nat (List.length ps)))
      self.
Proof.
  intros Hle Hwrong. revert self Hle Hwrong.
  induction ps as [|p ps IH]; intros self Hle Hwrong.
  - simpl. rewrite Z.add_0_r, Z.min_r by exact Hle. destruct self; reflexivity.
  - apply Forall_cons_iff in Hwrong as [Hp Hps].
    simpl map. rewrite state_run_cons, state_call_method, validate_pin_eq.
    destruct (_ >=? _) eqn:Hge.
    + match goal with
      | |- context [state (?b, ?s, ?o)] => change (state (b, s, o)) with s
      end.
      rewrite IH by assumption.
      f_equal. change (List.length (p :: ps)) with (S (List.length ps)).
      lia.
    + destruct (PyStr.eqb p (pin self)) eqn:Heq.
      { apply PyStr_eqb_eq in Heq. contradiction. }
      match goal with
      | |- context [state (?b, ?s, ?o)] => change (state (b, s, o)) with s
      end. rewrite IH.
      * unfold set_pin_attempts. cbn [pin_attempts max_pin_attempts card_number pin balance transaction_history].
        f_equal. change (List.length (p :: ps)) with (S (List.length ps)).
        lia.
      * simpl. lia.
      * exact Hps.
Qed.

Lemma wrong_pins_count_witness :
  (state (run (map ValidatePin [PyStr.lit "0000"; PyStr.lit "1111"]) ATM_init))
    .(pin_attempts) = 2
  /\ (state (run (map ValidatePin
                      [PyStr.lit "0000"; PyStr.lit "1111"; PyStr.lit "2222";
                       PyStr.lit "3333"]) ATM_init)).(pin_attempts) = 3.
Proof.
  split.
  - rewrite (wrong_pins_count ATM_init [PyStr.lit "0000"; PyStr.lit "1111"]).
    + reflexivity.
    + simpl. lia.
    + repeat constructor; discriminate.
  - rewrite (wrong_pins_count ATM_init
               [PyStr.lit "0000"; PyStr.lit "1111"; PyStr.lit "2222";
                PyStr.lit "3333"]).
    + reflexivity.
    + simpl. lia.
    + repeat constructor; discriminate.
Defined.

(** ** The PIN in force *)

(** After a PIN change that is accepted, on a card that is not blocked,
    [validate_pin] accepts the new PIN and refuses every other string, the
    old PIN included. *)
Theorem change_pin_then_validate_pin
    (p : str) (now : datetime) (self : ATM) :
  change_pin_guard p = true ->
  ~ blocked self ->
  let self' := state (change_pin p now self) in
  result (validate_pin p self') = true
  /\ forall q, q <> p -> result (validate_pin q self') = false.
Proof.
  intros Hg Hnb. cbv zeta. rewrite change_pin_eq, Hg. simpl state.
  unfold blocked in Hnb. split.
  - rewrite validate_pin_eq. simpl.
    destruct (_ >=? _) eqn:Hge; [lia|].
    rewrite PyStr_eqb_refl. reflexivity.
  - intros q Hq. rewrite validate_pin_eq. simpl.
    destruct (_ >=? _); [reflexivity|].
    destruct (PyStr.eqb q p) eqn:Heq; [|reflexivity].
    apply PyStr_eqb_eq in Heq. contradiction.
Qed.

Lemma change_pin_then_validate_pin_witness :
  (let self' := state (change_pin (PyStr.lit "9999") 3 ATM_init) in
   result (validate_pin (PyStr.lit "9999") self') = true
   /\ result (validate_pin (PyStr.lit "5472") self') = false)
  /\ (let self' := state (change_pin circled_ones 3 ATM_init) in
      result (validate_pin circled_ones self') = true
      /\ result (validate_pin (PyStr.lit "1111") self') = false).
Proof.
  cbv zeta.
  assert (Hnb : ~ blocked ATM_init) by (unfold blocked; simpl; lia).
  pose proof (change_pin_then_validate_pin (PyStr.lit "9999") 3 ATM_init
                eq_refl Hnb) as [H1 H2].
  pose proof (change_pin_then_validate_pin circled_ones 3 ATM_init
                eq_refl Hnb) as [H3 H4].
  split; (split; [assumption|]).
  - apply H2. discriminate.
  - apply H4. discriminate.
Defined.

(** In every reachable state the PIN has four characters and
    [str.isdigit] holds of it. *)
Theorem pin_always_four_digits (self : ATM) :
  reachable self -> pin_well_formed self.
Proof.
  revert self. apply reachable_invariant.
  - split; reflexivity.
  - intros c self Hwf. rewrite state_call_method.
    destruct c; try exact Hwf.
    + rewrite validate_pin_eq. by_guards.
    + rewrite deposit_eq. by_guards.
    + rewrite withdraw_eq. by_guards.
    + rewrite transfer_eq. by_guards.
    + rewrite change_pin_eq. unfold change_pin_guard.
      destruct (PyStr.len new_pin =? 4) eqn:Hlen; simpl; [|exact Hwf].
      destruct (PyStr.isdigit new_pin) eqn:Hd; simpl; [|exact Hwf].
      split; [apply Z.eqb_eq, Hlen | exact Hd].
Qed.

Lemma pin_always_four_digits_witness :
  pin_well_formed (state (run [ChangePin (PyStr.lit "0420") 1;
                               ChangePin circled_ones 2;
                               ChangePin (PyStr.lit "042") 3] ATM_init)).
Proof.
  apply pin_always_four_digits.
  exists [ChangePin (PyStr.lit "0420") 1; ChangePin circled_ones 2;
          ChangePin (PyStr.lit "042") 3].
  reflexivity.
Defined.

(** ** The history *)

(** The history only grows, at its end, by at most one entry per call:
    after any sequence of calls the old history is the beginning of the new
    one. *)
Theorem history_append_only (cs : list call) (self : ATM) :
  exists added,
    (state (run cs self)).(transaction_history)
      = self.(transaction_history) ++ added
    /\ (List.length added <= List.length cs)%nat.
Proof.
  revert self. induction cs as [|c cs IH]; intros self.
  - exists []. split; [symmetry; apply app_nil_r | reflexivity].
  - rewrite state_run_cons.
    destruct (IH (state (call_method c self))) as (added & -> & Hlen).
    assert (Hstep : exists one,
               (state (call_method c self)).(transaction_history)
                 = self.(transaction_history) ++ one
               /\ (List.length one <= 1)%nat).
    { rewrite state_call_method.
      destruct c;
        try (exists []; split; [symmetry; apply app_nil_r | simpl; lia]).
      - rewrite validate_pin_eq.
        exists []. split; [|simpl; lia]. rewrite app_nil_r. by_guards.
      - rewrite deposit_eq. destruct (deposit_guard amount).
        + eexists [_]. split; [reflexivity | simpl; lia].
        + exists []. split; [symmetry; apply app_nil_r | simpl; lia].
      - rewrite withdraw_eq. destruct (withdraw_guard amount self).
        + eexists [_]. split; [reflexivity | simpl; lia].
        + exists []. split; [symmetry; apply app_nil_r | simpl; lia].
      - rewrite transfer_eq. destruct (withdraw_guard amount self).
        + eexists [_]. split; [reflexivity | simpl; lia].
        + exists []. split; [symmetry; apply app_nil_r | simpl; lia].
      - rewrite change_pin_eq. destruct (change_pin_guard new_pin).
        + eexists [_]. split; [reflexivity | simpl; lia].
        + exists []. split; [symmetry; apply app_nil_r | simpl; lia]. }
    destruct Hstep as (one & -> & Hone).
    exists (one ++ added). split; [symmetry; apply app_assoc|].
    rewrite length_app. simpl. lia.
Qed.

Lemma closing_balance_app (start : float) (h : list transaction)
    (t : transaction) :
  closing_balance start (h ++ [t]) = t.(tx_balance).
Proof. unfold closing_balance. rewrite fold_left_app. reflexivity. Qed.

Lemma chained_app (start : float) (h : list transaction) (t : transaction) :
  chained start (h ++ [t])
  <-> chained start h /\ follows (closing_balance start h) t.
Proof.
  revert start. induction h as [|u h IH]; intros start; simpl.
  - unfold closing_balance. simpl. tauto.
  - rewrite IH. unfold closing_balance. simpl. tauto.
Qed.

(** [x - y] is [x + (-y)]. *)
Lemma sub_add_neg (x y : float) :
  PyFloat.sub x y = PyFloat.add x (PyFloat.neg y).
Proof.
  destruct x as [sx|sx| |sx mx ex]; destruct y as [sy|sy| |sy my ey];
    try reflexivity;
    destruct sx, sy; reflexivity.
Qed.

(** What the history and the balance have in common, call after call. *)
Lemma history_invariant (self : ATM) :
  reachable self ->
  chained ATM_init.(balance) self.(transaction_history)
  /\ closing_balance ATM_init.(balance) self.(transaction_history)
     = self.(balance)
  /\ (self.(transaction_history) = [] -> self.(pin) = ATM_init.(pin)).
Proof.
  revert self. apply reachable_invariant.
  - repeat split.
  - set (b0 := balance ATM_init). set (p0 := pin ATM_init).
    intros c self (Hch & Hcl & Hpin). rewrite state_call_method.
    assert (Hnil : forall (h : list transaction) t, h ++ [t] = [] -> False)
      by (intros h t H; destruct h; discriminate H).
    destruct c; try (repeat split; assumption).
    + rewrite validate_pin_eq. by_guards.
    + rewrite deposit_eq. destruct (deposit_guard amount); [|auto].
      simpl. rewrite chained_app, closing_balance_app, Hcl.
      repeat split; auto. intros H. destruct (Hnil _ _ H).
    + rewrite withdraw_eq. destruct (withdraw_guard amount self); [|auto].
      simpl. rewrite chained_app, closing_balance_app, Hcl.
      repeat split; auto.
      * unfold follows. simpl. apply sub_add_neg.
      * intros H. destruct (Hnil _ _ H).
    + rewrite transfer_eq. destruct (withdraw_guard amount self); [|auto].
      simpl. rewrite chained_app, closing_balance_app, Hcl.
      repeat split; auto.
      * unfold follows. simpl. apply sub_add_neg.
      * intros H. destruct (Hnil _ _ H).
    + rewrite change_pin_eq. destruct (change_pin_guard new_pin); [|auto].
      simpl. rewrite chained_app, closing_balance_app, Hcl.
      repeat split; auto. intros H. destruct (Hnil _ _ H).
Qed.

(** In every reachable state the last entry of the history carries the
    current balance; and while the history is empty, the balance and the
    PIN are those of a fresh instance. *)
Theorem history_closes_on_balance (self : ATM) :
  reachable self ->
  (forall h t, self.(transaction_history) = h ++ [t] ->
               t.(tx_balance) = self.(balance))
  /\ (self.(transaction_history) = [] ->
      self.(balance) = PyFloat.of_Z 1000 /\ self.(pin) = PyStr.lit "5472").
Proof.
  intros Hr. destruct (history_invariant self Hr) as (_ & Hcl & Hpin). split.
  - intros h t Hh. rewrite Hh, closing_balance_app in Hcl. exact Hcl.
  - intros Hh. split; [|exact (Hpin Hh)].
    rewrite Hh in Hcl. symmetry. exact Hcl.
Qed.

Lemma history_closes_on_balance_witness :
  let self := state (run six_deposits ATM_init) in
  (last self.(transaction_history)
        (mkTransaction [] (Int 0) PyFloat.zero 0)).(tx_balance)
  = self.(balance).
Proof.
  cbv zeta.
  assert (Hr : reachable (state (run six_deposits ATM_init)))
    by (exists six_deposits; reflexivity).
  refine (proj1 (history_closes_on_balance _ Hr)
                (removelast (transaction_history
                               (state (run six_deposits ATM_init)))) _ _).
  vm_compute. reflexivity.
Defined.

(** In every reachable state the history is a chain from the opening
    balance: the balance of each entry is the balance of the entry before
    it, or 1000.0 for the first, plus the amount of the entry (a float sum),
    and a PIN change carries the balance over. *)
Theorem history_chained (self : ATM) :
  reachable self -> chained (PyFloat.of_Z 1000) self.(transaction_history).
Proof.
  intros Hr. exact (proj1 (history_invariant self Hr)).
Qed.

Lemma history_chained_witness :
  chained (PyFloat.of_Z 1000)
    (state (run [Deposit (PyFloat.of_Z 50) 1; Withdraw (PyFloat.of_Z 20) 2;
                 ChangePin (PyStr.lit "0001") 3] ATM_init)).(transaction_history).
Proof.
  apply history_chained.
  exists [Deposit (PyFloat.of_Z 50) 1; Withdraw (PyFloat.of_Z 20) 2;
          ChangePin (PyStr.lit "0001") 3].
  reflexivity.
Defined.

(** In every reachable state each entry of the history has one of the four
    shapes the methods record: a ['Deposit'] with a positive amount, a
    ['Withdrawal'] or a ['Transfer to ...'] with the negation of a positive
    amount, or a ['PIN Change'] with the integer 0. *)
Theorem history_entries_of_methods (self : ATM) :
  reachable self -> Forall entry_of_method self.(transaction_history).
Proof.
  revert self. apply reachable_invariant.
  - constructor.
  - intros c self Hall. rewrite state_call_method.
    destruct c; try exact Hall.
    + rewrite validate_pin_eq. by_guards.
    + rewrite deposit_eq. destruct (deposit_guard amount) eqn:Hg; [|exact Hall].
      simpl. apply Forall_app. split; [exact Hall|]. constructor; [|constructor].
      left. split; [reflexivity|]. exists amount. split; [reflexivity|exact Hg].
    + rewrite withdraw_eq. destruct (withdraw_guard amount self) eqn:Hg;
        [|exact Hall].
      apply andb_true_iff in Hg as [Hg _].
      simpl. apply Forall_app. split; [exact Hall|]. constructor; [|constructor].
      right; left. split; [reflexivity|].
      exists amount. split; [reflexivity|exact Hg].
    + rewrite transfer_eq. destruct (withdraw_guard amount self) eqn:Hg;
        [|exact Hall].
      apply andb_true_iff in Hg as [Hg _].
      simpl. apply Forall_app. split; [exact Hall|]. constructor; [|constructor].
      right; right; left. split; [exists target_account; reflexivity|].
      exists amount. split; [reflexivity|exact Hg].
    + rewrite change_pin_eq. destruct (change_pin_guard new_pin); [|exact Hall].
      simpl. apply Forall_app. split; [exact Hall|]. constructor; [|constructor].
      right; right; right. split; reflexivity.
Qed.

Lemma history_entries_of_methods_witness :
  Forall entry_of_method
    (state (run [Transfer (PyFloat.of_Z 50) (PyStr.lit "77") 1;
                 Deposit PyFloat.nan 2] ATM_init)).(transaction_history).
Proof.
  apply history_entries_of_methods.
  exists [Transfer (PyFloat.of_Z 50) (PyStr.lit "77") 1; Deposit PyFloat.nan 2].
  reflexivity.
Defined.

(** ** Rounding stays in the format *)

Section RoundingFormat.

Variables prec emax : Z.
Hypothesis prec_gt_0 : 0 < prec.

Lemma Zdigits2_nonneg (m : Z) : 0 <= Zdigits2 m.
Proof. destruct m; simpl; lia. Qed.

Lemma Zdigits2_pos (p : positive) : 1 <= Zdigits2 (Z.pos p).
Proof. simpl. lia. Qed.

(** One step of shift takes one digit off. *)
Lemma shr_1_digits (mrs : shr_record) :
  0 <= shr_m mrs ->
  Zdigits2 (shr_m (shr_1 mrs)) = Z.max 0 (Zdigits2 (shr_m mrs) - 1).
Proof.
  destruct mrs as [m r s]. cbn [shr_m].
  destruct m as [|[p|p|]|p]; cbn [shr_1 shr_m Zdigits2 digits2_pos];
    rewrite ?Pos2Z.inj_succ; lia.
Qed.

Lemma iter_pos_shr_1_digits (n : positive) :
  forall mrs,
    0 <= shr_m mrs ->
    Zdigits2 (shr_m (iter_pos shr_1 n mrs))
    = Z.max 0 (Zdigits2 (shr_m mrs) - Z.pos n).
Proof.
  induction n as [n IH|n IH|]; simpl; intros mrs H.
  - rewrite IH by (apply iter_pos_shr_1_nonneg, shr_1_nonneg, H).
    rewrite IH by (apply shr_1_nonneg, H).
    rewrite shr_1_digits by exact H. lia.
  - rewrite IH by (apply iter_pos_shr_1_nonneg, H).
    rewrite IH by exact H. lia.
  - apply shr_1_digits, H.
Qed.

(** What [shr_fexp] returns for a mantissa [m >= 0] whose exponent [e] is
    at most the exponent of the format: the exponent of the format, and a
    mantissa with the digits that are left. *)
Lemma shr_fexp_digits (m e : Z) (l : location) :
  0 <= m ->
  e <= fexp prec emax (Zdigits2 m + e) ->
  let r := shr_fexp prec emax m e l in
  0 <= shr_m (fst r)
  /\ snd r = fexp prec emax (Zdigits2 m + e)
  /\ Zdigits2 (shr_m (fst r)) = Z.max 0 (Zdigits2 m + e - snd r).
Proof.
  intros Hm He. cbv zeta.
  pose proof (shr_fexp_nonneg prec emax m e l Hm) as Hnn.
  pose proof (Zdigits2_nonneg m) as Hd.
  split; [exact Hnn|]. clear Hnn.
  unfold shr_fexp, shr.
  destruct (fexp prec emax (Zdigits2 m + e) - e) as [|n|n] eqn:Hn;
    cbn [fst snd].
  - rewrite shr_m_of_loc. split; lia.
  - rewrite iter_pos_shr_1_digits by (rewrite shr_m_of_loc; exact Hm).
    rewrite shr_m_of_loc. split; lia.
  - lia.
Qed.

(** The same for any exponent: the result is in normal form when its
    mantissa is not 0. *)
Lemma shr_fexp_canonical (m e : Z) (l : location) :
  0 <= m ->
  let r := shr_fexp prec emax m e l in
  0 <= shr_m (fst r)
  /\ ((fexp prec emax (Zdigits2 m + e) <= e /\ shr_m (fst r) = m /\ snd r = e)
      \/ (e < fexp prec emax (Zdigits2 m + e)
          /\ snd r = fexp prec emax (Zdigits2 m + e)
          /\ Zdigits2 (shr_m (fst r)) = Z.max 0 (Zdigits2 m + e - snd r))).
Proof.
  intros Hm. cbv zeta.
  split; [exact (shr_fexp_nonneg prec emax m e l Hm)|].
  destruct (Z_le_gt_dec (fexp prec emax (Zdigits2 m + e)) e) as [Hle|Hgt].
  - left. split; [exact Hle|].
    unfold shr_fexp, shr.
    destruct (fexp prec emax (Zdigits2 m + e) - e) as [|n|n] eqn:Hn;
      cbn [fst snd]; try lia; rewrite shr_m_of_loc; split; reflexivity.
  - right. split; [lia|].
    exact (proj2 (shr_fexp_digits m e l Hm ltac:(lia))).
Qed.

Lemma digits2_pos_succ (p : positive) :
  (digits2_pos p <= digits2_pos (Pos.succ p))%positive.
Proof.
  induction p as [p IH|p IH|]; simpl; lia.
Qed.

Lemma round_nearest_even_digits (m : Z) (l : location) :
  0 <= m ->
  0 <= round_nearest_even m l
  /\ Zdigits2 m <= Zdigits2 (round_nearest_even m l).
Proof.
  intros Hm. split; [apply round_nearest_even_nonneg, Hm|].
  assert (Hup : Zdigits2 m <= Zdigits2 (m + 1)).
  { destruct m as [|p|p]; [simpl; lia | | lia].
    change (Z.pos p + 1) with (Z.pos (p + 1)). rewrite Pos.add_1_r.
    simpl. pose proof (digits2_pos_succ p). lia. }
  destruct l as [|[ | | ]]; simpl; try destruct (Z.even m); lia.
Qed.

Lemma fexp_monotone (x y : Z) :
  x <= y -> fexp prec emax x <= fexp prec emax y.
Proof. unfold fexp. lia. Qed.

(** Rounding a positive mantissa whose exponent is at most the exponent of
    the format gives a value of the format. *)
Lemma binary_round_aux_valid (sx : bool) (mx : positive) (ex : Z)
    (lx : location) :
  ex <= fexp prec emax (Zdigits2 (Z.pos mx) + ex) ->
  valid_binary prec emax (binary_round_aux prec emax sx (Z.pos mx) ex lx) = true.
Proof.
  intros He. unfold binary_round_aux.
  destruct (shr_fexp_digits (Z.pos mx) ex lx ltac:(lia) He) as (H1 & He' & Hd').
  destruct (shr_fexp prec emax (Z.pos mx) ex lx) as [mrs' e'].
  cbn [fst snd] in *.
  set (m1 := round_nearest_even (shr_m mrs') (loc_of_shr_record mrs')).
  assert (0 <= m1 /\ Zdigits2 (shr_m mrs') <= Zdigits2 m1) as [Hm1 Hd1]
    by exact (round_nearest_even_digits _ (loc_of_shr_record mrs') H1).
  destruct (shr_fexp_canonical m1 e' loc_Exact Hm1) as (H2 & Hcases).
  destruct (shr_fexp prec emax m1 e' loc_Exact) as [mrs'' e''].
  cbn [fst snd] in *.
  destruct (shr_m mrs'') as [|m2|m2] eqn:Hm2; [reflexivity| |reflexivity].
  destruct (e'' <=? emax - prec) eqn:Hb; [|reflexivity].
  unfold valid_binary, bounded, canonical_mantissa.
  rewrite Hb, andb_true_r. apply Z.eqb_eq.
  change (Z.pos (digits2_pos m2)) with (Zdigits2 (Z.pos m2)).
  pose proof (Zdigits2_pos m2) as Hpos.
  destruct Hcases as [(Hle & Hm & Hee) | (Hlt & Hee & Hdd)].
  - subst e''. rewrite Hm.
    apply Z.le_antisymm; [exact Hle|].
    transitivity (fexp prec emax (Zdigits2 (Z.pos mx) + ex)); [lia|].
    apply fexp_monotone. lia.
  - rewrite Hee. f_equal. lia.
Qed.

Lemma iter_xO_digits (m d : positive) :
  Z.pos (digits2_pos (Pos.iter xO m d)) = Z.pos (digits2_pos m) + Z.pos d.
Proof.
  induction d as [|d IH] using Pos.peano_ind.
  - simpl. lia.
  - rewrite Pos.iter_succ. simpl digits2_pos. lia.
Qed.

Lemma binary_round_valid (sx : bool) (mx : positive) (ex : Z) :
  valid_binary prec emax (binary_round prec emax sx mx ex) = true.
Proof.
  unfold binary_round, shl_align.
  destruct (fexp prec emax (Z.pos (digits2_pos mx) + ex) - ex) as [|d|d] eqn:Hd;
    apply binary_round_aux_valid; simpl Zdigits2; try lia.
  rewrite iter_xO_digits.
  replace (Z.pos (digits2_pos mx) + Z.pos d
           + fexp prec emax (Z.pos (digits2_pos mx) + ex))
    with (Z.pos (digits2_pos mx) + ex) by lia.
  lia.
Qed.

Lemma binary_normalize_valid (m e : Z) (szero : bool) :
  valid_binary prec emax (binary_normalize prec emax m e szero) = true.
Proof.
  destruct m; simpl; [reflexivity | apply binary_round_valid ..].
Qed.

Lemma digits2_pos_bounds (m : positive) :
  2 ^ (Z.pos (digits2_pos m) - 1) <= Z.pos m < 2 ^ Z.pos (digits2_pos m).
Proof.
  induction m as [m IH|m IH|]; cbn [digits2_pos];
    [| |simpl; lia];
    rewrite Pos2Z.inj_succ;
    replace (Z.succ (Z.pos (digits2_pos m)) - 1) with (Z.pos (digits2_pos m))
      by lia;
    rewrite Z.pow_succ_r by lia;
    replace (2 ^ Z.pos (digits2_pos m))
      with (2 * 2 ^ (Z.pos (digits2_pos m) - 1)) in *
      by (rewrite <- Z.pow_succ_r by lia; f_equal; lia);
    lia.
Qed.

Lemma iter_xO_value (m d : positive) :
  Z.pos (Pos.iter xO m d) = Z.pos m * 2 ^ Z.pos d.
Proof.
  induction d as [|d IH] using Pos.peano_ind.
  - simpl. lia.
  - rewrite Pos.iter_succ, Pos2Z.inj_succ, Z.pow_succ_r by lia.
    rewrite Pos2Z.inj_xO, IH. lia.
Qed.

(** On two positive finite values of the format, [a <= b] in the float
    order is [<=] between the mantissas brought to the smaller exponent, as
    the subtraction does. *)
Lemma leb_aligned (ma mb : positive) (ea eb : Z) :
  bounded prec emax ma ea = true ->
  bounded prec emax mb eb = true ->
  SFleb (S754_finite false ma ea) (S754_finite false mb eb) = true ->
  Z.pos (fst (shl_align ma ea (Z.min eb ea)))
  <= Z.pos (fst (shl_align mb eb (Z.min eb ea))).
Proof.
  unfold bounded, canonical_mantissa. intros Ha Hb Hle.
  apply andb_true_iff in Ha as [Ha _]. apply andb_true_iff in Hb as [Hb _].
  apply Z.eqb_eq in Ha, Hb. unfold fexp in Ha, Hb.
  unfold SFleb, SFcompare in Hle.
  destruct (Z.compare_spec ea eb) as [Heq|Hlt|Hgt].
  - subst eb. rewrite Z.min_id. unfold shl_align. rewrite Z.sub_diag.
    cbn [fst].
    change (Pos.compare_cont Eq ma mb) with (ma ?= mb)%positive in Hle.
    destruct (ma ?= mb)%positive eqn:Hc; try discriminate.
    + apply Pos.compare_eq in Hc. subst. lia.
    + apply Z.lt_le_incl. exact Hc.
  - rewrite Z.min_r by lia. unfold shl_align. rewrite Z.sub_diag.
    destruct (ea - eb) as [|d|d] eqn:Hd; try lia.
    cbn [fst]. rewrite iter_xO_value.
    pose proof (digits2_pos_bounds ma) as [_ Hma].
    pose proof (digits2_pos_bounds mb) as [Hmb _].
    assert (Hdb : Z.pos (digits2_pos mb) = prec) by lia.
    assert (Hda : Z.pos (digits2_pos ma) <= prec) by lia.
    rewrite Hdb in Hmb.
    assert (H2 : 2 ^ prec = 2 * 2 ^ (prec - 1))
      by (rewrite <- Z.pow_succ_r by lia; f_equal; lia).
    assert (Hpow : 2 ^ Z.pos (digits2_pos ma) <= 2 ^ prec)
      by (apply Z.pow_le_mono_r; lia).
    assert (Hsh : 2 ^ 1 <= 2 ^ Z.pos d) by (apply Z.pow_le_mono_r; lia).
    change (2 ^ 1) with 2 in Hsh.
    assert (0 < 2 ^ (prec - 1)) by (apply Z.pow_pos_nonneg; lia).
    nia.
  - discriminate.
Qed.


End RoundingFormat.

(** ** The balance on finite withdrawals *)

Lemma binary64_prec_gt_0 : 0 < PyFloat.prec.
Proof. reflexivity. Qed.

Lemma has_sign_false_nonneg (x : float) :
  PyFloat.has_sign false x = true -> PyFloat.leb (PyFloat.of_Z 0) x = true.
Proof.
  destruct x as [s|s| |s m e]; simpl; try destruct s;
    intros H; try discriminate H; reflexivity.
Qed.

Lemma neg_is_binary64 (a : float) :
  is_binary64 (PyFloat.neg a) = is_binary64 a.
Proof. destruct a; reflexivity. Qed.

Lemma add_is_binary64 (b a : float) :
  is_binary64 b = true -> is_binary64 a = true ->
  is_binary64 (PyFloat.add b a) = true.
Proof.
  intros Hb Ha.
  destruct b as [sb|sb| |sb mb eb]; destruct a as [sa|sa| |sa ma ea];
    try assumption; try reflexivity;
    try (destruct sb, sa; (assumption || reflexivity)).
  apply binary_normalize_valid.
Qed.

Lemma sub_is_binary64 (b a : float) :
  is_binary64 b = true -> is_binary64 a = true ->
  is_binary64 (PyFloat.sub b a) = true.
Proof.
  intros Hb Ha. rewrite sub_add_neg.
  apply add_is_binary64; [exact Hb | rewrite neg_is_binary64; exact Ha].
Qed.

(** On binary64 values, taking a positive finite [a <= b] from [b] leaves at
    least 0. *)
Lemma sub_nonneg (b a : float) :
  is_binary64 b = true -> is_binary64 a = true ->
  PyFloat.ltb (PyFloat.of_Z 0) a = true ->
  PyFloat.leb a b = true ->
  a <> PyFloat.inf ->
  PyFloat.leb (PyFloat.of_Z 0) (PyFloat.sub b a) = true.
Proof.
  intros Hb Ha Hpos Hle Hinf.
  apply ltb_zero_inv in Hpos. destruct Hpos as [-> | (ma & ea & ->)];
    [contradiction|].
  destruct b as [sb|[|]| |[|] mb eb]; try discriminate Hle; [reflexivity|].
  pose proof (leb_aligned PyFloat.prec PyFloat.emax binary64_prec_gt_0
                ma mb ea eb Ha Hb Hle) as Hal.
  unfold PyFloat.sub, SFsub. cbn [cond_Zopp].
  match goal with
  | |- context [binary_normalize _ _ ?d ?e _] =>
      remember d as diff eqn:Hdiff; remember e as ez
  end.
  destruct diff as [|p|p]; cbn [binary_normalize].
  - reflexivity.
  - apply has_sign_false_nonneg, binary_round_sign.
  - subst ez. lia.
Qed.

Lemma balance_in_funds_call_method (c : call) (self : ATM) :
  amount_ok c -> balance_in_funds self ->
  balance_in_funds (state (call_method c self)).
Proof.
  unfold balance_in_funds. intros Hok [Hv Hn]. rewrite state_call_method.
  destruct c; simpl in Hok; try (split; assumption).
  - rewrite validate_pin_eq. by_guards.
  - split; [|apply deposit_keeps_balance_nonneg, Hn].
    rewrite deposit_eq. destruct (deposit_guard amount); [|exact Hv].
    apply add_is_binary64; assumption.
  - destruct Hok as [Ha Hinf].
    rewrite withdraw_eq. destruct (withdraw_guard amount self) eqn:Hg;
      [|split; assumption].
    apply andb_true_iff in Hg as [Hpos Hle].
    split; [apply sub_is_binary64 | apply sub_nonneg]; assumption.
  - destruct Hok as [Ha Hinf].
    rewrite transfer_eq. destruct (withdraw_guard amount self) eqn:Hg;
      [|split; assumption].
    apply andb_true_iff in Hg as [Hpos Hle].
    split; [apply sub_is_binary64 | apply sub_nonneg]; assumption.
  - rewrite change_pin_eq. by_guards.
Qed.

(** From a fresh instance, after every sequence of calls whose amounts are
    binary64 values and whose withdrawal and transfer amounts are not the
    positive infinity, the balance is a binary64 value and [balance >= 0]
    holds: the guards keep the account in funds, through rounding and
    through overflow to infinity of the deposits. *)
Theorem balance_nonneg_on_finite_withdrawals (cs : list call) :
  Forall amount_ok cs ->
  is_binary64 (state (run cs ATM_init)).(balance) = true
  /\ PyFloat.leb (PyFloat.of_Z 0) (state (run cs ATM_init)).(balance) = true.
Proof.
  intros Hok.
  assert (Hgen : forall self, balance_in_funds self ->
                              balance_in_funds (state (run cs self))).
  { induction cs as [|c cs IH]; intros self Hs; [exact Hs|].
    apply Forall_cons_iff in Hok as [Hc Hcs].
    rewrite state_run_cons. apply (IH Hcs).
    apply balance_in_funds_call_method; assumption. }
  apply Hgen. split; reflexivity.
Qed.

Lemma balance_nonneg_on_finite_withdrawals_witness :
  let cs := [Deposit PyFloat.inf 1; Withdraw (PyFloat.of_Z 250) 2;
             Transfer (PyFloat.of_Z 5) (PyStr.lit "9") 3] in
  PyFloat.leb (PyFloat.of_Z 0) (state (run cs ATM_init)).(balance) = true.
Proof.
  cbv zeta.
  refine (proj2 (balance_nonneg_on_finite_withdrawals _ _)).
  repeat constructor; discriminate.
Defined.

(** ** Reasoning about sessions *)

Lemma ends_weaken {A} (m : Session A) (w : world)
    (Q Q' : A -> world -> Prop) (E E' : world -> Prop) :
  ends m w Q E ->
  (forall a w', Q a w' -> Q' a w') ->
  (forall w', E w' -> E' w') ->
  ends m w Q' E'.
Proof.
  unfold ends. destruct (m w) as [[[a|e|] w'] o]; auto.
Qed.

Lemma ends_bind {A B} (m : Session A) (k : A -> Session B) (w : world)
    (Q : B -> world -> Prop) (E : world -> Prop) :
  ends m w (fun a w' => ends (k a) w' Q E) E ->
  ends (sbind m k) w Q E.
Proof.
  unfold ends, sbind. destruct (m w) as [[[a|e|] w1] o1]; auto.
  destruct (k a w1) as [[[b|e|] w2] o2]; auto.
Qed.

Lemma ends_sret {A} (a : A) (w : world)
    (Q : A -> world -> Prop) (E : world -> Prop) :
  Q a w -> ends (sret a) w Q E.
Proof. exact (fun H => H). Qed.

Lemma ends_emit (e : event) (w : world)
    (Q : unit -> world -> Prop) (E : world -> Prop) :
  Q tt w -> ends (emit e) w Q E.
Proof. exact (fun H => H). Qed.

Lemma ends_input (prompt : string) (w : world)
    (Q : str -> world -> Prop) (E : world -> Prop) :
  (stdin w = [] -> E w) ->
  (forall line rest,
      stdin w = line :: rest -> Q line (mkWorld (atm w) rest (S (reads w)))) ->
  ends (input prompt) w Q E.
Proof.
  unfold ends, input. intros Hnil Hcons.
  destruct (stdin w) as [|line rest]; auto.
Qed.

Lemma ends_on_atm {A} (m : M A) (w : world)
    (Q : A -> world -> Prop) (E : world -> Prop) :
  Q (result (m (atm w))) (mkWorld (state (m (atm w))) (stdin w) (reads w)) ->
  ends (on_atm m) w Q E.
Proof.
  unfold ends, on_atm, result, state.
  destruct (m (atm w)) as [[a self'] out]. exact (fun H => H).
Qed.

Lemma display_main_menu_eq (w : world) :
  exists out, display_main_menu w = (Returned tt, w, out).
Proof. eexists. reflexivity. Qed.

Lemma ends_display_main_menu (w : world)
    (Q : unit -> world -> Prop) (E : world -> Prop) :
  Q tt w -> ends display_main_menu w Q E.
Proof.
  unfold ends. destruct (display_main_menu_eq w) as [out ->]. exact (fun H => H).
Qed.

Section SessionFacts.

Variable float_of_str : str -> option float.
Variable clock : nat -> datetime.

Lemma ends_datetime_now (w : world)
    (Q : datetime -> world -> Prop) (E : world -> Prop) :
  Q (clock (reads w)) w -> ends (datetime_now clock) w Q E.
Proof. exact (fun H => H). Qed.

(** [get_valid_float_input] ends when it has more rounds than there are
    lines; it reads at least one line, leaves [atm] alone, and returns a
    float that [float] read from a line; its exception comes at the end of
    the input. *)
Lemma ends_get_valid_float_input (fuel : nat) (prompt : string) :
  forall w,
    (List.length (stdin w) < fuel)%nat ->
    ends (get_valid_float_input float_of_str fuel prompt) w
      (fun x w' =>
         atm w' = atm w
         /\ (List.length (stdin w') < List.length (stdin w))%nat
         /\ exists line, In line (stdin w) /\ float_of_str line = Some x)
      (fun w' => atm w' = atm w /\ stdin w' = []).
Proof.
  induction fuel as [|fuel IH]; intros w Hlen; [lia|].
  cbn [get_valid_float_input].
  apply ends_bind, ends_input.
  - intros Hnil. split; [reflexivity | exact Hnil].
  - intros line rest Hst. rewrite Hst in *. simpl in Hlen.
    destruct (float_of_str line) as [x|] eqn:Hparse.
    + apply ends_sret. split; [reflexivity|]. split; [simpl; lia|].
      exists line. split; [left; reflexivity | exact Hparse].
    + apply ends_bind, ends_emit.
      eapply ends_weaken; [apply IH; simpl; lia | |].
      * cbn [atm stdin]. intros x w' (Ha & Hl & line' & Hin & Hp).
        split; [exact Ha|]. split; [simpl; lia|].
        exists line'. split; [right; exact Hin | exact Hp].
      * cbn [atm stdin]. auto.
Qed.

(** A step of a session: the first command of a sequence. *)
Ltac session_step :=
  unfold say, clear_screen;
  lazymatch goal with
  | |- ends (sbind _ _) _ _ _ => apply ends_bind; session_step
  | |- ends (emit _) _ _ _ => apply ends_emit
  | |- ends (sret _) _ _ _ => apply ends_sret
  | |- ends display_main_menu _ _ _ => apply ends_display_main_menu
  | |- ends (datetime_now _) _ _ _ => apply ends_datetime_now
  | |- ends (on_atm _) _ _ _ => apply ends_on_atm
  | |- ends (if ?b then _ else _) _ _ _ => destruct b; session_step
  end.

(** The menu loop ends when it has more rounds than there are lines.  It
    reads at least one line, and it keeps every property of [atm] that the
    methods other than [validate_pin] keep; its exception comes at the end
    of the input. *)
Lemma ends_menu_loop (I : ATM -> Prop) :
  (forall c self,
      (forall p, c <> ValidatePin p) ->
      I self -> I (state (call_method c self))) ->
  forall fuel w,
    (List.length (stdin w) < fuel)%nat ->
    I (atm w) ->
    ends (menu_loop float_of_str clock fuel) w
      (fun _ w' =>
         I (atm w') /\ (List.length (stdin w') < List.length (stdin w))%nat)
      (fun w' => I (atm w') /\ stdin w' = []).
Proof.
  intros Hstep.
  assert (Hdep : forall a t self, I self -> I (state (deposit a t self))).
  { intros a t self HI.
    rewrite <- (state_call_method (Deposit a t)).
    apply Hstep; [discriminate | exact HI]. }
  assert (Hwd : forall a t self, I self -> I (state (withdraw a t self))).
  { intros a t self HI.
    rewrite <- (state_call_method (Withdraw a t)).
    apply Hstep; [discriminate | exact HI]. }
  assert (Htr : forall a x t self, I self -> I (state (transfer a x t self))).
  { intros a x t self HI.
    rewrite <- (state_call_method (Transfer a x t)).
    apply Hstep; [discriminate | exact HI]. }
  assert (Hcp : forall p t self, I self -> I (state (change_pin p t self))).
  { intros p t self HI.
    rewrite <- (state_call_method (ChangePin p t)).
    apply Hstep; [discriminate | exact HI]. }
  induction fuel as [|fuel IH]; intros w Hlen HI; [lia|].
  assert (Htail : forall w1,
             (List.length (stdin w1) <= fuel)%nat ->
             I (atm w1) ->
             ends (sbind (input "Press Enter to continue...")
                         (fun _ => menu_loop float_of_str clock fuel)) w1
               (fun _ w' =>
                  I (atm w')
                  /\ (List.length (stdin w') < List.length (stdin w1))%nat)
               (fun w' => I (atm w') /\ stdin w' = [])).
  { intros w1 Hl1 HI1. apply ends_bind, ends_input.
    - intros Hnil. split; assumption.
    - intros line rest Hst. rewrite Hst in Hl1. simpl in Hl1.
      eapply ends_weaken; [apply IH; [simpl; lia | exact HI1] | |].
      + cbn [atm stdin]. intros _ w' [HI' Hl']. split; [exact HI'|].
        rewrite Hst. simpl. lia.
      + auto. }
  cbn [menu_loop].
  do 2 session_step. apply ends_bind, ends_input.
  { intros Hnil. split; assumption. }
  intros option rest Hst. rewrite Hst in *. simpl in Hlen.
  assert (Hfin : forall (w1 : world),
             (List.length (stdin w1) <= List.length rest)%nat ->
             I (atm w1) ->
             ends (sbind (input "Press Enter to continue...")
                         (fun _ => menu_loop float_of_str clock fuel)) w1
               (fun _ w' =>
                  I (atm w')
                  /\ (List.length (stdin w') < S (List.length rest))%nat)
               (fun w' => I (atm w') /\ stdin w' = [])).
  { intros w1 Hl1 HI1.
    eapply ends_weaken; [apply Htail; [lia | exact HI1] | |].
    - intros _ w' [HI' Hl']. split; [exact HI' | lia].
    - auto. }
  destruct (PyStr.eqb option (PyStr.lit "1")).
  { do 2 session_step. apply Hfin; [cbn [stdin]; lia | exact HI]. }
  destruct (PyStr.eqb option (PyStr.lit "2")).
  { apply ends_bind.
    eapply ends_weaken;
      [apply ends_get_valid_float_input; cbn [stdin]; lia | |].
    - cbn [atm stdin]. intros amount w1 (Ha & Hl & _).
      do 2 session_step. apply ends_bind.
      destruct (result _); session_step;
        (apply Hfin; [cbn [stdin]; lia | cbn [atm]; rewrite Ha; apply Hdep, HI]).
    - cbn [atm]. intros w' [-> Hnil]. split; assumption. }
  destruct (PyStr.eqb option (PyStr.lit "3")).
  { apply ends_bind.
    eapply ends_weaken;
      [apply ends_get_valid_float_input; cbn [stdin]; lia | |].
    - cbn [atm stdin]. intros amount w1 (Ha & Hl & _).
      do 2 session_step. apply ends_bind.
      destruct (result _); session_step;
        (apply Hfin; [cbn [stdin]; lia | cbn [atm]; rewrite Ha; apply Hwd, HI]).
    - cbn [atm]. intros w' [-> Hnil]. split; assumption. }
  destruct (PyStr.eqb option (PyStr.lit "4")).
  { apply ends_bind, ends_input.
    { intros Hnil. split; assumption. }
    intros target rest' Hst'. cbn [stdin] in Hst'. subst rest.
    simpl in Hlen. apply ends_bind.
    eapply ends_weaken;
      [apply ends_get_valid_float_input; cbn [stdin]; lia | |].
    - cbn [atm stdin]. intros amount w1 (Ha & Hl & _).
      do 2 session_step. apply ends_bind.
      destruct (result _); session_step;
        (apply Hfin; [cbn [stdin]; simpl; lia
                     | cbn [atm]; rewrite Ha; apply Htr, HI]).
    - cbn [atm]. intros w' [-> Hnil]. split; assumption. }
  destruct (PyStr.eqb option (PyStr.lit "5")).
  { apply ends_bind, ends_input.
    { intros Hnil. split; assumption. }
    intros new_pin rest' Hst'. cbn [stdin] in Hst'. subst rest.
    simpl in Hlen.
    do 2 session_step. apply ends_bind.
    destruct (result _); session_step;
      (apply Hfin; [cbn [stdin]; simpl; lia | cbn [atm]; apply Hcp, HI]). }
  destruct (PyStr.eqb option (PyStr.lit "6")).
  { session_step. apply Hfin; [cbn [stdin]; lia|].
    cbn [atm]. rewrite print_mini_statement_eq. exact HI. }
  destruct (PyStr.eqb option (PyStr.lit "7")).
  { session_step. cbn [atm stdin]. split; [exact HI | simpl; lia]. }
  session_step. apply Hfin; [cbn [stdin]; lia | exact HI].
Qed.

(** [get_valid_float_input] skips the lines that [float] refuses, with one
    complaint for each, and returns what [float] reads from the first line
    it accepts, leaving the lines after it unread; when [float] refuses
    every line left, it reads them all and ends with [EOFError]. *)
Theorem get_valid_float_input_skips
    (prompt : string) (bad : list str) (fuel : nat) (self : ATM) (n : nat) :
  Forall (fun line => float_of_str line = None) bad ->
  (List.length bad < fuel)%nat ->
  (forall good x rest,
      float_of_str good = Some x ->
      get_valid_float_input float_of_str fuel prompt
        (mkWorld self (bad ++ good :: rest) n)
      = (Returned x, mkWorld self rest (n + List.length bad + 1),
         flat_map (fun _ => refused_line prompt) bad
         ++ [Ask (PyStr.lit prompt)]))
  /\ get_valid_float_input float_of_str fuel prompt (mkWorld self bad n)
     = (Raised EOFError, mkWorld self [] (n + List.length bad),
        flat_map (fun _ => refused_line prompt) bad
        ++ [Ask (PyStr.lit prompt)]).
Proof.
  revert fuel n. induction bad as [|line bad IH]; intros fuel n Hbad Hfuel.
  - destruct fuel as [|fuel]; [simpl in Hfuel; lia|]. split.
    + intros good x rest Hgood. cbn [get_valid_float_input app].
      unfold sbind, input. cbn [stdin atm reads]. rewrite Hgood.
      unfold sret. simpl. repeat f_equal. lia.
    + cbn [get_valid_float_input]. unfold sbind, input. cbn [stdin].
      simpl. repeat f_equal. lia.
  - apply Forall_cons_iff in Hbad as [Hline Hbad].
    destruct fuel as [|fuel]; [simpl in Hfuel; lia|]. simpl in Hfuel.
    destruct (IH fuel (S n) Hbad ltac:(lia)) as [IHgood IHeof]. split.
    + intros good x rest Hgood.
      cbn [get_valid_float_input app].
      unfold sbind at 1. unfold input. cbn [stdin atm reads]. rewrite Hline.
      unfold sbind at 1. unfold say, emit.
      rewrite (IHgood good x rest Hgood).
      simpl. repeat f_equal. lia.
    + cbn [get_valid_float_input].
      unfold sbind at 1. unfold input. cbn [stdin atm reads]. rewrite Hline.
      unfold sbind at 1. unfold say, emit.
      rewrite IHeof.
      simpl. repeat f_equal. lia.
Qed.

(** One round of the PIN loop on a card that is not blocked. *)
Lemma pin_loop_round (fuel : nat) (self : ATM) (p : str) (rest : list str)
    (n : nat) :
  (self.(pin_attempts) >=? self.(max_pin_attempts)) = false ->
  pin_loop float_of_str clock (S fuel) (mkWorld self (p :: rest) n)
  = if PyStr.eqb p self.(pin) then
      prepend [Ask (PyStr.lit "ENTER THE PIN: ")]
        (menu_loop float_of_str clock fuel
           (mkWorld (set_pin_attempts 0 self) rest (S n)))
    else
      let self' := set_pin_attempts (self.(pin_attempts) + 1) self in
      let said :=
        wrong_pin_events
          (self.(max_pin_attempts) - (self.(pin_attempts) + 1)) in
      if self.(pin_attempts) + 1 >=? 3 then
        (Returned tt, mkWorld self' rest (S n),
         said ++ [Say (PyStr.lit
                         "Card blocked. Please contact customer support.")])
      else
        prepend said (pin_loop float_of_str clock fuel (mkWorld self' rest (S n))).
Proof.
  intros Hopen. cbn [pin_loop].
  unfold sbind at 1. unfold getpass, input. cbn [stdin atm reads].
  unfold sbind at 1. unfold on_atm. cbn [stdin atm reads].
  rewrite validate_pin_eq, Hopen.
  destruct (PyStr.eqb p (pin self)).
  - unfold prepend.
    destruct (menu_loop _ _ _ _) as [[c w'] o]. reflexivity.
  - cbv zeta. unfold sbind, get_atm. cbn [atm set_pin_attempts pin_attempts].
    destruct (pin_attempts self + 1 >=? 3).
    + reflexivity.
    + unfold prepend.
      destruct (pin_loop _ _ _ _) as [[c w'] o]. reflexivity.
Qed.

Lemma main_eq (fuel : nat) (self : ATM) (lines : list str) (n : nat) :
  main float_of_str clock fuel (mkWorld self lines n)
  = prepend main_prelude
      (pin_loop float_of_str clock fuel (mkWorld ATM_init lines n)).
Proof.
  unfold main, sbind, new_atm, clear_screen, emit, prepend.
  cbn [stdin reads].
  destruct (pin_loop _ _ _ _) as [[c w'] o]. reflexivity.
Qed.

(** The PIN loop ends when it has more rounds than there are lines, and it
    keeps every property of [atm] that the methods keep. *)
Lemma ends_pin_loop (I : ATM -> Prop) :
  (forall c self, I self -> I (state (call_method c self))) ->
  forall fuel w,
    (List.length (stdin w) < fuel)%nat ->
    I (atm w) ->
    ends (pin_loop float_of_str clock fuel) w
      (fun _ w' => I (atm w'))
      (fun w' => I (atm w') /\ stdin w' = []).
Proof.
  intros Hstep. induction fuel as [|fuel IH]; intros w Hlen HI; [lia|].
  cbn [pin_loop]. apply ends_bind, ends_input.
  { intros Hnil. split; assumption. }
  intros p rest Hst. rewrite Hst in Hlen. simpl in Hlen.
  apply ends_bind, ends_on_atm. cbn [atm stdin reads].
  assert (HI' : I (state (validate_pin p (atm w)))).
  { rewrite <- (state_call_method (ValidatePin p)). apply Hstep, HI. }
  destruct (result (validate_pin p (atm w))).
  - eapply ends_weaken;
      [apply (ends_menu_loop I); [intros c self _; apply Hstep | | exact HI'] | |].
    + cbn [stdin]. lia.
    + intros _ w' [H _]. exact H.
    + auto.
  - unfold get_atm. apply ends_bind. unfold ends at 1.
    cbn [atm].
    destruct (_ >=? 3).
    + session_step. exact HI'.
    + apply IH; [cbn [stdin]; lia | exact HI'].
Qed.

(** [main] on the lines typed, with any property of a fresh [ATM] that the
    methods keep. *)
Lemma ends_run_main (I : ATM -> Prop) (lines : list str) :
  (forall c self, I self -> I (state (call_method c self))) ->
  I ATM_init ->
  ends (main float_of_str clock (S (List.length lines)))
       (mkWorld ATM_init lines 0)
       (fun _ w' => I (atm w'))
       (fun w' => I (atm w') /\ stdin w' = []).
Proof.
  intros Hstep Hinit. unfold ends. rewrite main_eq. unfold prepend.
  pose proof (ends_pin_loop I Hstep (S (List.length lines))
                (mkWorld ATM_init lines 0)) as H.
  unfold ends in H. cbn [stdin atm] in H.
  destruct (pin_loop _ _ _ _) as [[[a|e|] w'] o]; apply H; auto.
Qed.

(** [main] ends on every finite input: it returns, or the input runs out
    and [EOFError] comes up with no line left unread.  (One loop round more
    than there are lines is never used up.) *)
Theorem main_ends (lines : list str) :
  let r := run_main float_of_str clock lines in
  completion_of r <> Unfinished
  /\ (forall e, completion_of r = Raised e -> stdin (world_of r) = []).
Proof.
  cbv zeta. unfold run_main, completion_of, world_of.
  pose proof (ends_run_main (fun _ => True) lines (fun _ _ _ => Logic.I)
                Logic.I) as H.
  unfold ends in H.
  destruct (main _ _ _ _) as [[[a|e|] w'] o]; cbn [fst snd].
  - split; [discriminate | intros e He; discriminate He].
  - split; [discriminate | intros _ _; exact (proj2 H)].
  - contradiction.
Qed.

(** However [main] ends, the [ATM] it leaves is one that a sequence of
    method calls produces from a fresh instance: the session changes the
    account through its methods only, and every invariant of the reachable
    states holds at the end of a session. *)
Theorem main_leaves_reachable_atm (lines : list str) :
  reachable (atm (world_of (run_main float_of_str clock lines))).
Proof.
  unfold run_main, world_of.
  pose proof (ends_run_main reachable lines
                (fun c self => reachable_step c self) reachable_init) as H.
  unfold ends in H.
  destruct (main _ _ _ _) as [[[a|e|] w'] o]; cbn [fst snd].
  - exact H.
  - exact (proj1 H).
  - contradiction.
Qed.

(** The menu loop never asks for the PIN again: whatever is typed at the
    menu, [pin_attempts] is at the end what it was when the menu opened, so
    nothing done at the menu blocks the card, and a PIN changed at the menu
    is not checked in that session. *)
Theorem menu_keeps_pin_attempts (fuel : nat) (w : world) :
  (List.length (stdin w) < fuel)%nat ->
  let r := menu_loop float_of_str clock fuel w in
  completion_of r <> Unfinished
  /\ (atm (world_of r)).(pin_attempts) = (atm w).(pin_attempts).
Proof.
  intros Hlen. cbv zeta. unfold completion_of, world_of.
  pose proof (ends_menu_loop
                (fun self => pin_attempts self = pin_attempts (atm w))) as H.
  specialize (H (fun c self Hc Hs =>
                   eq_trans (proj2 (proj2 (call_method_frame c self)) Hc) Hs)
                fuel w Hlen eq_refl).
  unfold ends in H.
  destruct (menu_loop _ _ _ _) as [[[a|e|] w'] o]; cbn [fst snd].
  - split; [discriminate | exact (proj1 H)].
  - split; [discriminate | exact (proj1 H)].
  - contradiction.
Qed.

Lemma pin_loop_eof (fuel : nat) (self : ATM) (n : nat) :
  pin_loop float_of_str clock (S fuel) (mkWorld self [] n)
  = (Raised EOFError, mkWorld self [] n, [Ask (PyStr.lit "ENTER THE PIN: ")]).
Proof. reflexivity. Qed.

(** Three lines that are not the PIN end the session: each is answered
    with the attempts that remain, 2, 1 and 0, the card is declared blocked,
    and [main] returns with the account untouched but for the counter, now
    3; what is typed after them is never read. *)
Theorem three_wrong_pins_end_the_session (p1 p2 p3 : str) (rest : list str) :
  p1 <> ATM_init.(pin) -> p2 <> ATM_init.(pin) -> p3 <> ATM_init.(pin) ->
  run_main float_of_str clock (p1 :: p2 :: p3 :: rest)
  = (Returned tt,
     mkWorld (set_pin_attempts 3 ATM_init) rest 3,
     main_prelude
     ++ wrong_pin_events 2 ++ wrong_pin_events 1 ++ wrong_pin_events 0
     ++ [Say (PyStr.lit "Card blocked. Please contact customer support.")]).
Proof.
  intros H1 H2 H3. unfold run_main. rewrite main_eq.
  assert (Hne : forall p, p <> pin ATM_init ->
                          PyStr.eqb p (PyStr.lit "5472") = false).
  { intros p Hp. destruct (PyStr.eqb p (PyStr.lit "5472")) eqn:E;
      [|reflexivity].
    apply PyStr_eqb_eq in E. contradiction. }
  cbn [List.length].
  rewrite pin_loop_round by reflexivity.
  cbn [pin ATM_init set_pin_attempts pin_attempts max_pin_attempts].
  rewrite (Hne p1 H1). cbv zeta.
  change (0 + 1 >=? 3) with false. cbv iota.
  rewrite pin_loop_round by reflexivity.
  cbn [pin ATM_init set_pin_attempts pin_attempts max_pin_attempts].
  rewrite (Hne p2 H2). cbv zeta.
  change (0 + 1 + 1 >=? 3) with false. cbv iota.
  rewrite pin_loop_round by reflexivity.
  cbn [pin ATM_init set_pin_attempts pin_attempts max_pin_attempts].
  rewrite (Hne p3 H3). cbv zeta.
  change (0 + 1 + 1 + 1 >=? 3) with true. cbv iota.
  reflexivity.
Qed.

Lemma prepend_parts {A} (pre : list event)
    (r : completion A * world * list event) :
  completion_of (prepend pre r) = completion_of r
  /\ world_of (prepend pre r) = world_of r
  /\ events_of (prepend pre r) = pre ++ events_of r.
Proof. destruct r as [[c w] o]. repeat split. Qed.

Lemma wrong_pin_eqb (p : str) :
  p <> ATM_init.(pin) -> PyStr.eqb p (PyStr.lit "5472") = false.
Proof.
  intros Hp. destruct (PyStr.eqb p (PyStr.lit "5472")) eqn:E; [|reflexivity].
  apply PyStr_eqb_eq in E. contradiction.
Qed.

(** One round of the PIN loop of a session, on a wrong PIN [H] or on the
    PIN. *)
Ltac pin_round :=
  rewrite pin_loop_round by reflexivity;
  cbn [pin ATM_init set_pin_attempts pin_attempts max_pin_attempts];
  first [ rewrite wrong_pin_eqb by assumption
        | rewrite PyStr_eqb_refl ];
  cbv zeta;
  try match goal with
      | |- context [?a >=? 3] =>
          let b := eval vm_compute in (a >=? 3) in
          change (a >=? 3) with b; cbv iota
      end.

(** Without the PIN among the first three lines typed, the session does not
    get past the PIN prompt: at its end the account is the fresh one but
    for the counter, which is the number of PINs tried, at most 3; with
    fewer than three lines it ends with [EOFError]. *)
Theorem no_menu_without_the_pin (lines : list str) :
  Forall (fun p => p <> ATM_init.(pin)) (firstn 3 lines) ->
  let r := run_main float_of_str clock lines in
  atm (world_of r)
  = set_pin_attempts (Z.of_nat (Nat.min 3 (List.length lines))) ATM_init
  /\ ((List.length lines < 3)%nat -> completion_of r = Raised EOFError).
Proof.
  intros Hwrong. cbv zeta. unfold run_main. rewrite main_eq.
  destruct (prepend_parts main_prelude
              (pin_loop float_of_str clock (S (List.length lines))
                 (mkWorld ATM_init lines 0))) as (-> & -> & _).
  destruct lines as [|p1 [|p2 [|p3 rest]]]; cbn [firstn] in Hwrong;
    repeat match goal with
           | H : Forall _ (_ :: _) |- _ =>
               apply Forall_cons_iff in H; destruct H
           end;
    cbn [List.length]; repeat pin_round;
    rewrite ?pin_loop_eof;
    repeat match goal with
           | |- context [prepend ?pre ?r] =>
               destruct (prepend_parts pre r) as (-> & -> & _)
           end;
    (split; [reflexivity | intros; (reflexivity || (simpl in *; lia))]).
Qed.

(** The PIN, typed after at most two wrong ones, opens the menu on the
    fresh account, the counter back at 0: from there the session is the
    menu loop on the lines that follow. *)
Theorem the_pin_opens_the_menu (wrongs rest : list str) :
  (List.length wrongs <= 2)%nat ->
  Forall (fun p => p <> ATM_init.(pin)) wrongs ->
  let r := run_main float_of_str clock (wrongs ++ ATM_init.(pin) :: rest) in
  let m := menu_loop float_of_str clock (S (List.length rest))
                     (mkWorld ATM_init rest (S (List.length wrongs))) in
  completion_of r = completion_of m
  /\ world_of r = world_of m
  /\ exists pre, events_of r = pre ++ events_of m.
Proof.
  intros Hlen Hwrong. cbv zeta. unfold run_main. rewrite main_eq.
  destruct wrongs as [|p1 [|p2 [|p3 more]]]; [| | |simpl in Hlen; lia];
    repeat match goal with
           | H : Forall _ (_ :: _) |- _ =>
               apply Forall_cons_iff in H; destruct H
           end;
    cbn [List.length app]; repeat pin_round;
    repeat match goal with
           | |- context [prepend ?pre ?r] =>
               destruct (prepend_parts pre r) as (-> & -> & ->)
           end;
    (split; [reflexivity | split; [reflexivity|]]);
    rewrite ?app_assoc; eexists; reflexivity.
Qed.

End SessionFacts.

(** ** Sessions on given lines *)

Lemma get_valid_float_input_skips_witness :
  get_valid_float_input float_inf_nan 5 "Deposit amount: $"
    (mkWorld ATM_init [PyStr.lit "abc"; []; PyStr.lit "inf"; PyStr.lit "x"] 0)
  = (Returned PyFloat.inf, mkWorld ATM_init [PyStr.lit "x"] 3,
     refused_line "Deposit amount: $" ++ refused_line "Deposit amount: $"
     ++ [Ask (PyStr.lit "Deposit amount: $")]).
Proof.
  refine (proj1 (get_valid_float_input_skips float_inf_nan
                   "Deposit amount: $" [PyStr.lit "abc"; []] 5 ATM_init 0 _ _)
                (PyStr.lit "inf") PyFloat.inf [PyStr.lit "x"] eq_refl).
  - repeat constructor.
  - simpl. lia.
Defined.

Lemma main_ends_witness :
  completion_of (run_main float_inf_nan line_clock [PyStr.lit "0000"])
  = Raised EOFError
  /\ stdin (world_of (run_main float_inf_nan line_clock [PyStr.lit "0000"]))
     = [].
Proof.
  split; [reflexivity|].
  exact (proj2 (main_ends float_inf_nan line_clock [PyStr.lit "0000"])
               EOFError eq_refl).
Defined.

Lemma menu_keeps_pin_attempts_witness :
  (atm (world_of (menu_loop float_inf_nan line_clock 4
                    (mkWorld (set_pin_attempts 2 ATM_init)
                             [PyStr.lit "5"; PyStr.lit "0007"; []] 1))))
    .(pin_attempts) = 2.
Proof.
  refine (proj2 (menu_keeps_pin_attempts float_inf_nan line_clock 4
                   (mkWorld (set_pin_attempts 2 ATM_init)
                            [PyStr.lit "5"; PyStr.lit "0007"; []] 1) _)).
  simpl. lia.
Defined.

Lemma three_wrong_pins_end_the_session_witness :
  world_of (run_main float_inf_nan line_clock
              [PyStr.lit "0000"; PyStr.lit "1111"; PyStr.lit "2222";
               PyStr.lit "5472"; PyStr.lit "7"])
  = mkWorld (set_pin_attempts 3 ATM_init) [PyStr.lit "5472"; PyStr.lit "7"] 3.
Proof.
  rewrite (three_wrong_pins_end_the_session float_inf_nan line_clock
             (PyStr.lit "0000") (PyStr.lit "1111") (PyStr.lit "2222")
             [PyStr.lit "5472"; PyStr.lit "7"]);
    [reflexivity | discriminate ..].
Defined.

Lemma no_menu_without_the_pin_witness :
  completion_of (run_main float_inf_nan line_clock
                   [PyStr.lit "1234"; PyStr.lit "2"])
  = Raised EOFError.
Proof.
  refine (proj2 (no_menu_without_the_pin float_inf_nan line_clock
                   [PyStr.lit "1234"; PyStr.lit "2"] _) _).
  - repeat constructor; discriminate.
  - simpl. lia.
Defined.

Lemma the_pin_opens_the_menu_witness :
  world_of (run_main float_inf_nan line_clock
              [PyStr.lit "0000"; PyStr.lit "5472"; PyStr.lit "7"; PyStr.lit "1"])
  = world_of (menu_loop float_inf_nan line_clock 3
                (mkWorld ATM_init [PyStr.lit "7"; PyStr.lit "1"] 2)).
Proof.
  refine (proj1 (proj2 (the_pin_opens_the_menu float_inf_nan line_clock
                          [PyStr.lit "0000"] [PyStr.lit "7"; PyStr.lit "1"]
                          _ _))).
  - simpl. lia.
  - repeat constructor; discriminate.
Defined.

(** ** Emptying the account *)

(** The guard of [withdraw] includes the balance itself: on a positive
    finite balance, withdrawing exactly the balance is accepted and leaves
    0.0; and on a balance of 0.0 every withdrawal and every transfer is
    refused. *)
Theorem withdraw_whole_balance
    (m : positive) (e : Z) (now : datetime) (self : ATM) :
  self.(balance) = S754_finite false m e ->
  let r := withdraw self.(balance) now self in
  result r = true
  /\ (state r).(balance) = PyFloat.zero
  /\ forall a t now',
       result (withdraw a now' (state r)) = false
       /\ result (transfer a t now' (state r)) = false.
Proof.
  intros Hb. cbv zeta.
  assert (Hg : withdraw_guard (balance self) self = true).
  { unfold withdraw_guard. rewrite Hb.
    unfold PyFloat.leb, SFleb, SFcompare.
    rewrite Z.compare_refl.
    change (Pos.compare_cont Eq m m) with (m ?= m)%positive.
    rewrite Pos.compare_refl. reflexivity. }
  assert (Hz : PyFloat.sub (balance self) (balance self) = PyFloat.zero).
  { rewrite Hb. unfold PyFloat.sub, SFsub. cbn [cond_Zopp].
    rewrite Z.sub_diag. reflexivity. }
  rewrite withdraw_eq, Hg. cbn [result state fst snd].
  split; [reflexivity|]. split; [exact Hz|].
  intros a t now'. rewrite withdraw_eq, transfer_eq.
  assert (Hno : forall s, withdraw_guard a s = false
                          \/ balance s <> PyFloat.zero).
  { intros s. destruct (withdraw_guard a s) eqn:Hga; [|left; reflexivity].
    right. intros Hs. unfold withdraw_guard in Hga. rewrite Hs in Hga.
    apply andb_true_iff in Hga as [Hpos Hle].
    apply ltb_zero_inv in Hpos.
    destruct Hpos as [-> | (ma & ea & ->)]; discriminate Hle. }
  match goal with
  | |- context [withdraw_guard a ?s] =>
      destruct (Hno s) as [-> | Hne]; [split; reflexivity|];
      exfalso; apply Hne; exact Hz
  end.
Qed.

Lemma withdraw_whole_balance_witness :
  (state (withdraw (PyFloat.of_Z 1000) 1 ATM_init)).(balance) = PyFloat.zero
  /\ result (withdraw (PyFloat.of_Z 1) 2
               (state (withdraw (PyFloat.of_Z 1000) 1 ATM_init))) = false.
Proof.
  pose proof (withdraw_whole_balance 8796093022208000 (-43) 1 ATM_init eq_refl)
    as (_ & Hz & Hno).
  split; [exact Hz | exact (proj1 (Hno (PyFloat.of_Z 1) [] 2))].
Defined.

(** ** Not a number, and ASCII PINs, on given inputs *)

Lemma balance_nan_is_sticky_witness :
  let s2 := state (run [Deposit PyFloat.inf 1; Withdraw PyFloat.inf 2] ATM_init) in
  (state (call_method (Deposit (PyFloat.of_Z 5) 3) s2)).(balance) = PyFloat.nan.
Proof.
  cbv zeta.
  exact (balance_nan_is_sticky (Deposit (PyFloat.of_Z 5) 3)
           (state (run [Deposit PyFloat.inf 1; Withdraw PyFloat.inf 2] ATM_init))
           eq_refl).
Defined.

Lemma withdraw_nan_only_at_infinity_witness :
  let s1 := state (deposit PyFloat.inf 1 ATM_init) in
  PyFloat.inf = PyFloat.inf /\ s1.(balance) = PyFloat.inf.
Proof.
  cbv zeta.
  exact (withdraw_nan_only_at_infinity PyFloat.inf 2
           (state (deposit PyFloat.inf 1 ATM_init)) eq_refl eq_refl eq_refl).
Defined.

Lemma change_pin_ascii_witness :
  result (change_pin (PyStr.lit "9999") 1 ATM_init) = true.
Proof.
  refine (proj2 (change_pin_ascii (PyStr.lit "9999") 1 ATM_init _)
                (conj eq_refl eq_refl)).
  repeat constructor.
Defined.
